(** * Travel Reservation System (src/main.c): reservation lifecycle,
      availability accounting, identifiers and start-up loading.

    The C program keeps four singly linked lists in global variables and a
    static counter inside [generateReservationID].  Each linked list is a
    Rocq list in node order, the globals and the files are the fields of
    [State], and every operation takes the values it reads with [scanf] as
    arguments and returns the message it prints together with the new
    state.  [malloc] and [fopen]-for-writing are taken to succeed. *)

From Stdlib Require Import ZArith List String Bool Lia.
Import ListNotations.
Open Scope string_scope.
Open Scope list_scope.
Open Scope Z_scope.

(** ** The C type [int] *)

Module CInt.

Definition INT_MAX : Z := 2147483647.
Definition INT_MIN : Z := -2147483648.

(** Two's-complement reduction to 32 bits.  Signed overflow is undefined
    in C; the model takes the wrap-around of the usual targets. *)
Definition wrap (z : Z) : Z := (z + 2147483648) mod 4294967296 - 2147483648.

Definition add (a b : Z) : Z := wrap (a + b).
Definition sub (a b : Z) : Z := wrap (a - b).

Definition in_range (z : Z) : Prop := INT_MIN <= z <= INT_MAX.

End CInt.

(** ** Structs *)

Record User := mkUser {
  username : string;
  password : string;
  isAdmin : Z
}.

Record Flight := mkFlight {
  flightNumber : Z;
  origin : string;
  destination : string;
  departureTime : string;
  arrivalTime : string;
  seatsAvailable : Z
}.

Record Hotel := mkHotel {
  hotelID : Z;
  name : string;
  location : string;
  roomsAvailable : Z
}.

(** [Reservation.username], [.flightNumber] and [.hotelID] carry the prefix
    [res_] because the field names are already taken by the other structs. *)
Record Reservation := mkReservation {
  reservationID : Z;
  res_username : string;
  res_flightNumber : Z;
  res_hotelID : Z;
  status : string
}.

(** [strcpy(current->status, s)] *)
Definition set_status (r : Reservation) (s : string) : Reservation :=
  mkReservation (reservationID r) (res_username r) (res_flightNumber r)
                (res_hotelID r) s.

(** ** Files and global variables *)

(** A file that cannot be opened is [None].  users.dat and reservations.dat
    hold the records written by [fwrite]; flights.txt and hotels.txt the
    lines [fscanf] accepts; last_id.txt the integer [fscanf] reads. *)
Record Files := mkFiles {
  users_dat : option (list User);
  flights_txt : option (list Flight);
  hotels_txt : option (list Hotel);
  reservations_dat : option (list Reservation);
  last_id_txt : option Z
}.

Record State := mkState {
  head : list User;
  flightsHead : list Flight;
  hotelsHead : list Hotel;
  reservationsHead : list Reservation;
  lastID : Z;                 (* static int lastID in generateReservationID *)
  disk : Files
}.

Definition with_head (us : list User) (st : State) : State :=
  mkState us (flightsHead st) (hotelsHead st) (reservationsHead st)
          (lastID st) (disk st).

Definition with_flightsHead (fs : list Flight) (st : State) : State :=
  mkState (head st) fs (hotelsHead st) (reservationsHead st)
          (lastID st) (disk st).

Definition with_hotelsHead (hs : list Hotel) (st : State) : State :=
  mkState (head st) (flightsHead st) hs (reservationsHead st)
          (lastID st) (disk st).

Definition with_reservationsHead (rs : list Reservation) (st : State) : State :=
  mkState (head st) (flightsHead st) (hotelsHead st) rs (lastID st) (disk st).

Definition with_lastID (n : Z) (st : State) : State :=
  mkState (head st) (flightsHead st) (hotelsHead st) (reservationsHead st)
          n (disk st).

Definition with_disk (d : Files) (st : State) : State :=
  mkState (head st) (flightsHead st) (hotelsHead st) (reservationsHead st)
          (lastID st) d.

(** All globals are [NULL] and the static counter is 0 when [main] starts. *)
Definition initial_state (d : Files) : State := mkState [] [] [] [] 0 d.

(** The lines the operations print. *)
Inductive Message :=
| MsgExiting              (* "Exiting..." / "Exiting reservation process." *)
| MsgFullyBooked          (* "Flight fully booked or no seats available." *)
| MsgHotelUnavailable     (* "Hotel not available or fully booked." *)
| MsgReservationMade (id : Z)  (* "... made successfully! Reservation ID: %d" *)
| MsgUsernameExists       (* "This username already exists." *)
| MsgRegistered           (* "User registered successfully!" *)
| MsgCancelSubmitted      (* "Cancellation request submitted." *)
| MsgOnlyApproved         (* "Only approved reservations can be cancelled." *)
| MsgNotFound             (* "Reservation not found." *)
| MsgApproved             (* "Reservation approved." *)
| MsgRejected             (* "Reservation rejected." *)
| MsgInvalid              (* "Invalid input." *)
| MsgExitNoChanges        (* "Exiting without making changes." *)
| MsgCancellationApproved (* "Cancellation approved." *)
| MsgCancellationDenied   (* "Cancellation denied." *)
| MsgInvalidNoChanges.    (* "Invalid input. No changes made." *)

(** ** Persistence *)

(** The read loop of [loadUsers] and [loadReservationsFromFile]: every
    record read is linked after the last node. *)
Fixpoint read_records {A : Type} (records acc : list A) : list A :=
  match records with
  | [] => acc
  | temp :: rest => read_records rest (acc ++ [temp])
  end.

Definition loadUsers (st : State) : State :=
  match users_dat (disk st) with
  | None => st
  | Some records => with_head (read_records records []) st
  end.

Definition saveUsers (st : State) : State :=
  let d := disk st in
  with_disk (mkFiles (Some (head st)) (flights_txt d) (hotels_txt d)
                     (reservations_dat d) (last_id_txt d)) st.

(** [loadFlightsFromFile] and [loadHotelsFromFile] do not reset the list
    head; [main] calls them once, while the lists are still empty. *)
Definition loadFlightsFromFile (st : State) : State :=
  match flights_txt (disk st) with
  | None => st
  | Some lines => with_flightsHead (read_records lines (flightsHead st)) st
  end.

Definition loadHotelsFromFile (st : State) : State :=
  match hotels_txt (disk st) with
  | None => st
  | Some lines => with_hotelsHead (read_records lines (hotelsHead st)) st
  end.

Definition saveReservationsToFile (st : State) : State :=
  let d := disk st in
  with_disk (mkFiles (users_dat d) (flights_txt d) (hotels_txt d)
                     (Some (reservationsHead st)) (last_id_txt d)) st.

Definition loadReservationsFromFile (st : State) : State :=
  match reservations_dat (disk st) with
  | None => st
  | Some records => with_reservationsHead (read_records records []) st
  end.

Definition loadLastReservationID (st : State) : Z :=
  match last_id_txt (disk st) with
  | None => 1000
  | Some lastID => lastID
  end.

Definition saveLastReservationID (lastID : Z) (st : State) : State :=
  let d := disk st in
  with_disk (mkFiles (users_dat d) (flights_txt d) (hotels_txt d)
                     (reservations_dat d) (Some lastID)) st.

(** The loading sequence of [main]; the value of the last call is dropped. *)
Definition main_load (d : Files) : State :=
  let st := loadUsers (initial_state d) in
  let st := loadFlightsFromFile st in
  let st := loadHotelsFromFile st in
  let st := loadReservationsFromFile st in
  let _ := loadLastReservationID st in
  st.

(** ** Identifiers *)

Definition generateReservationID (st : State) : Z * State :=
  let loaded := if lastID st =? 0 then loadLastReservationID st else lastID st in
  let next := CInt.add loaded 1 in
  (next, with_lastID next st).

(** ** Users *)

(** The scan of [registerUser] for a node whose name [strcmp]s equal. *)
Fixpoint username_exists (uname : string) (users : list User) : bool :=
  match users with
  | [] => false
  | current :: rest =>
      if String.eqb (username current) uname then true
      else username_exists uname rest
  end.

Definition registerUser (uname pwd : string) (adm : Z) (st : State)
  : Message * State :=
  let newUser := mkUser uname pwd adm in
  if username_exists uname (head st) then (MsgUsernameExists, st)
  else (MsgRegistered, saveUsers (with_head (head st ++ [newUser]) st)).

(** ** Flights and hotels *)

Fixpoint flightExists (fn : Z) (flights : list Flight) : bool :=
  match flights with
  | [] => false
  | current :: rest =>
      if flightNumber current =? fn then true else flightExists fn rest
  end.

Fixpoint hotelExists (hid : Z) (hotels : list Hotel) : bool :=
  match hotels with
  | [] => false
  | current :: rest =>
      if hotelID current =? hid then true else hotelExists hid rest
  end.

(** [while (flight && flight->flightNumber != flightNumber) flight = flight->next;] *)
Fixpoint lookup_flight (fn : Z) (flights : list Flight) : option Flight :=
  match flights with
  | [] => None
  | flight :: rest =>
      if negb (flightNumber flight =? fn) then lookup_flight fn rest
      else Some flight
  end.

Fixpoint lookup_hotel (hid : Z) (hotels : list Hotel) : option Hotel :=
  match hotels with
  | [] => None
  | hotel :: rest =>
      if negb (hotelID hotel =? hid) then lookup_hotel hid rest
      else Some hotel
  end.

(** ** Counting reservations *)

Fixpoint count_flight_loop (fn : Z) (s : string) (rs : list Reservation)
                           (count : Z) : Z :=
  match rs with
  | [] => count
  | current :: rest =>
      count_flight_loop fn s rest
        (if (res_flightNumber current =? fn) && String.eqb (status current) s
         then CInt.add count 1 else count)
  end.

Definition countReservationsByFlight (fn : Z) (s : string)
                                     (rs : list Reservation) : Z :=
  count_flight_loop fn s rs 0.

Fixpoint count_hotel_loop (hid : Z) (s : string) (rs : list Reservation)
                          (count : Z) : Z :=
  match rs with
  | [] => count
  | current :: rest =>
      count_hotel_loop hid s rest
        (if (res_hotelID current =? hid) && String.eqb (status current) s
         then CInt.add count 1 else count)
  end.

Definition countReservationsByHotel (hid : Z) (s : string)
                                    (rs : list Reservation) : Z :=
  count_hotel_loop hid s rs 0.

Definition calculateAvailableSeats (fn : Z) (st : State) : Z :=
  let approved := countReservationsByFlight fn "Approved" (reservationsHead st) in
  match lookup_flight fn (flightsHead st) with
  | Some flight => CInt.sub (seatsAvailable flight) approved
  | None => 0
  end.

Definition calculateAvailableRooms (hid : Z) (st : State) : Z :=
  let approved := countReservationsByHotel hid "Approved" (reservationsHead st) in
  match lookup_hotel hid (hotelsHead st) with
  | Some hotel => CInt.sub (roomsAvailable hotel) approved
  | None => 0
  end.

(** The number [listFlightsUser] prints after "Seats Available:" for one
    flight node. *)
Definition shown_seats (current : Flight) (rs : list Reservation) : Z :=
  let pendingReservations :=
    countReservationsByFlight (flightNumber current) "Pending" rs in
  let approvedReservations :=
    countReservationsByFlight (flightNumber current) "Approved" rs in
  let availableSeats :=
    CInt.sub (seatsAvailable current)
             (CInt.add pendingReservations approvedReservations) in
  if availableSeats <? 0 then 0 else availableSeats.

(** One printed line per flight node, in list order. *)
Definition listFlightsUser (st : State) : list (Flight * Z) :=
  map (fun current => (current, shown_seats current (reservationsHead st)))
      (flightsHead st).

(** ** Reservation lifecycle *)

Definition makeFlightReservation (uname : string) (fn : Z) (st : State)
  : Message * State :=
  if fn =? 0 then (MsgExiting, st)
  else
    let availableSeats := calculateAvailableSeats fn st in
    if availableSeats <=? 0 then (MsgFullyBooked, st)
    else
      let (id, st1) := generateReservationID st in
      let newReservation := mkReservation id uname fn (-1) "Pending" in
      (MsgReservationMade id,
       saveReservationsToFile
         (with_reservationsHead (newReservation :: reservationsHead st1) st1)).

Definition makeHotelReservation (uname : string) (hid : Z) (st : State)
  : Message * State :=
  if hid =? 0 then (MsgExiting, st)
  else
    let availableRooms := calculateAvailableRooms hid st in
    if availableRooms <=? 0 then (MsgHotelUnavailable, st)
    else
      let (id, st1) := generateReservationID st in
      let newReservation := mkReservation id uname (-1) hid "Pending" in
      (MsgReservationMade id,
       saveReservationsToFile
         (with_reservationsHead (newReservation :: reservationsHead st1) st1)).

(** The loop of [cancelUserReservation]: the first node with the ID and the
    user name decides. *)
Fixpoint cancel_loop (uname : string) (resID : Z) (rs : list Reservation)
  : Message * list Reservation :=
  match rs with
  | [] => (MsgNotFound, [])
  | current :: rest =>
      if (reservationID current =? resID)
         && String.eqb (res_username current) uname
      then
        if String.eqb (status current) "Approved"
        then (MsgCancelSubmitted, set_status current "Cancel Requested" :: rest)
        else (MsgOnlyApproved, current :: rest)
      else
        let (m, rest') := cancel_loop uname resID rest in
        (m, current :: rest')
  end.

Definition cancelUserReservation (uname : string) (resID : Z) (st : State)
  : Message * State :=
  if resID =? 0 then (MsgExiting, st)
  else
    match cancel_loop uname resID (reservationsHead st) with
    | (MsgCancelSubmitted, rs') =>
        (MsgCancelSubmitted,
         saveReservationsToFile (with_reservationsHead rs' st))
    | (m, _) => (m, st)
    end.

(** [while (current != NULL && current->reservationID != resID)] *)
Fixpoint find_reservation (resID : Z) (rs : list Reservation)
  : option Reservation :=
  match rs with
  | [] => None
  | current :: rest =>
      if negb (reservationID current =? resID) then find_reservation resID rest
      else Some current
  end.

(** [strcpy(current->status, s)] on the node [find_reservation] stops at. *)
Fixpoint write_status (resID : Z) (s : string) (rs : list Reservation)
  : list Reservation :=
  match rs with
  | [] => []
  | current :: rest =>
      if negb (reservationID current =? resID)
      then current :: write_status resID s rest
      else set_status current s :: rest
  end.

Definition handleReservationApproval (resID : Z) (decision : string)
                                     (st : State) : Message * State :=
  if resID =? 0 then (MsgExiting, st)
  else
    match find_reservation resID (reservationsHead st) with
    | None => (MsgNotFound, st)
    | Some _ =>
        if String.eqb decision "yes" then
          (MsgApproved,
           saveReservationsToFile
             (with_reservationsHead
                (write_status resID "Approved" (reservationsHead st)) st))
        else if String.eqb decision "no" then
          (MsgRejected,
           saveReservationsToFile
             (with_reservationsHead
                (write_status resID "Rejected" (reservationsHead st)) st))
        else (MsgInvalid, saveReservationsToFile st)
    end.

Definition handleCancellationRequests (resID : Z) (decision : string)
                                      (st : State) : Message * State :=
  if resID =? 0 then (MsgExiting, st)
  else
    match find_reservation resID (reservationsHead st) with
    | None => (MsgNotFound, st)
    | Some _ =>
        if String.eqb decision "exit" then (MsgExitNoChanges, st)
        else if String.eqb decision "yes" then
          (MsgCancellationApproved,
           saveReservationsToFile
             (with_reservationsHead
                (write_status resID "Cancelled" (reservationsHead st)) st))
        else if String.eqb decision "no" then
          (MsgCancellationDenied,
           saveReservationsToFile
             (with_reservationsHead
                (write_status resID "Approved" (reservationsHead st)) st))
        else (MsgInvalidNoChanges, saveReservationsToFile st)
    end.

(** Cases 3 and 4 of [userMenu]: after the reservation attempt one more
    identifier is drawn and written to last_id.txt. *)
Definition userMenu_case3 (uname : string) (fn : Z) (st : State)
  : Message * State :=
  let (m, st1) := makeFlightReservation uname fn st in
  let (newResID, st2) := generateReservationID st1 in
  (m, saveLastReservationID newResID st2).

Definition userMenu_case4 (uname : string) (hid : Z) (st : State)
  : Message * State :=
  let (m, st1) := makeHotelReservation uname hid st in
  let (newResID, st2) := generateReservationID st1 in
  (m, saveLastReservationID newResID st2).

(** ** Runs of operations *)

(** The operations that touch the reservation list, with what is typed. *)
Inductive Op :=
| OpMakeFlight (uname : string) (fn : Z)
| OpMakeHotel (uname : string) (hid : Z)
| OpCancel (uname : string) (resID : Z)
| OpApproval (resID : Z) (decision : string)
| OpCancellation (resID : Z) (decision : string).

Definition step (op : Op) (st : State) : State :=
  match op with
  | OpMakeFlight uname fn => snd (makeFlightReservation uname fn st)
  | OpMakeHotel uname hid => snd (makeHotelReservation uname hid st)
  | OpCancel uname resID => snd (cancelUserReservation uname resID st)
  | OpApproval resID decision => snd (handleReservationApproval resID decision st)
  | OpCancellation resID decision =>
      snd (handleCancellationRequests resID decision st)
  end.

Definition run (ops : list Op) (st : State) : State :=
  fold_left (fun s op => step op s) ops st.

(** The two ways the program draws an identifier: a plain call (inside
    [makeFlightReservation] and [makeHotelReservation]) and
    [saveLastReservationID(generateReservationID())] (menus). *)
Inductive IdOp := Draw | DrawAndSave.

Fixpoint run_ids (ops : list IdOp) (st : State) : list Z * State :=
  match ops with
  | [] => ([], st)
  | op :: rest =>
      let (id, st1) := generateReservationID st in
      let st2 := match op with
                 | Draw => st1
                 | DrawAndSave => saveLastReservationID id st1
                 end in
      let (ids, st3) := run_ids rest st2 in
      (id :: ids, st3)
  end.

(** Every element is smaller than all the later ones. *)
Fixpoint strictly_increasing (ids : list Z) : Prop :=
  match ids with
  | [] => True
  | id :: rest => (forall later, In later rest -> id < later)
                  /\ strictly_increasing rest
  end.

(** ** Quantities the properties speak about *)

(** Number of reservations of [rs] that refer to flight [fn] (resp. hotel
    [hid]) and have status [s], as a mathematical integer. *)
Definition refers_to_flight (fn : Z) (s : string) (r : Reservation) : bool :=
  (res_flightNumber r =? fn) && String.eqb (status r) s.

Definition refers_to_hotel (hid : Z) (s : string) (r : Reservation) : bool :=
  (res_hotelID r =? hid) && String.eqb (status r) s.

Definition flight_tally (fn : Z) (s : string) (rs : list Reservation) : Z :=
  Z.of_nat (List.length (filter (refers_to_flight fn s) rs)).

Definition hotel_tally (hid : Z) (s : string) (rs : list Reservation) : Z :=
  Z.of_nat (List.length (filter (refers_to_hotel hid s) rs)).

(** No flight and no hotel has more Approved reservations than places. *)
Definition no_overbooking (st : State) : bool :=
  forallb (fun f =>
             countReservationsByFlight (flightNumber f) "Approved"
                                       (reservationsHead st)
             <=? seatsAvailable f) (flightsHead st)
  && forallb (fun h =>
                countReservationsByHotel (hotelID h) "Approved"
                                         (reservationsHead st)
                <=? roomsAvailable h) (hotelsHead st).

(** The two link fields of a reservation, and "exactly one of them is not
    the sentinel -1". *)
Definition link_fields (r : Reservation) : Z * Z :=
  (res_flightNumber r, res_hotelID r).

Definition exactly_one_set (r : Reservation) : bool :=
  xorb (res_flightNumber r =? -1) (res_hotelID r =? -1).

(** What is typed as the key of the flight or hotel to book. *)
Definition booked_key (op : Op) : option Z :=
  match op with
  | OpMakeFlight _ fn => Some fn
  | OpMakeHotel _ hid => Some hid
  | _ => None
  end.

(** The list after the status of every reservation with identifier [resID]
    has been set to [s]. *)
Definition restatus (resID : Z) (s : string) (rs : list Reservation)
  : list Reservation :=
  map (fun x => if reservationID x =? resID then set_status x s else x) rs.

(** ** Sample data *)

Definition no_files : Files := mkFiles None None None None None.

Definition sample_users : list User :=
  [mkUser "ana" "pw1" 0; mkUser "rui" "pw2" 1].

Definition sample_flights : list Flight :=
  [mkFlight 10 "OPO" "LIS" "08:00" "09:00" 1;
   mkFlight 20 "LIS" "FNC" "10:00" "12:00" 3].

Definition sample_hotels : list Hotel := [mkHotel 7 "Mar" "Faro" 2].

Definition sample_reservations : list Reservation :=
  [mkReservation 1003 "rui" (-1) 7 "Pending";
   mkReservation 1002 "ana" 20 (-1) "Approved";
   mkReservation 1001 "ana" 20 (-1) "Pending"].

Definition sample_state (rs : list Reservation) : State :=
  mkState sample_users sample_flights sample_hotels rs 0 no_files.

(** ** Administration, login and listings *)

(** The lines printed by the operations of this part. *)
Inductive AdminMessage :=
| MsgUserDeleted              (* "User deleted successfully." *)
| MsgUserNotFound (id : Z)    (* "User with ID %d not found." *)
| MsgFlightExists (fn : Z)    (* "Flight number %d already exists." *)
| MsgFlightAdded              (* "Flight added successfully." *)
| MsgFlightDeleted (fn : Z)   (* "Flight %d deleted successfully." *)
| MsgFlightNotFound (fn : Z)  (* "Flight number %d not found." *)
| MsgFlightUpdated            (* "Flight details updated successfully." *)
| MsgHotelExists (hid : Z)    (* "Hotel ID %d already exists." *)
| MsgHotelAdded               (* "Hotel added successfully." *)
| MsgHotelDeleted (hid : Z)   (* "Hotel ID %d deleted successfully." *)
| MsgHotelNotFound (hid : Z)  (* "Hotel ID %d not found." *)
| MsgHotelUpdated             (* "Hotel details updated successfully." *)
| MsgRoleDenied               (* "Access denied. Incorrect user role." *)
| MsgInvalidLogin.            (* "Invalid username or password." *)

(** The loop of [deleteUser]: [currentId] counts the nodes from 1 and the
    node whose count equals [id] is unlinked.  [None] when the loop runs off
    the list. *)
Fixpoint deleteUser_loop (id : Z) (users : list User) (currentId : Z)
  : option (list User) :=
  match users with
  | [] => None
  | current :: rest =>
      if currentId =? id then Some rest
      else
        match deleteUser_loop id rest (CInt.add currentId 1) with
        | Some rest' => Some (current :: rest')
        | None => None
        end
  end.

Definition deleteUser (id : Z) (st : State) : AdminMessage * State :=
  match deleteUser_loop id (head st) 1 with
  | Some users => (MsgUserDeleted, saveUsers (with_head users st))
  | None => (MsgUserNotFound id, st)
  end.

(** The globals together with [char currentUser[50]]. *)
Record Session := mkSession {
  globals : State;
  currentUser : string
}.

(** The first node whose name and password both compare equal. *)
Fixpoint find_credentials (uname pwd : string) (users : list User)
  : option User :=
  match users with
  | [] => None
  | current :: rest =>
      if String.eqb (username current) uname
         && String.eqb (password current) pwd
      then Some current
      else find_credentials uname pwd rest
  end.

Definition loginUser (expectedAdmin : Z) (uname pwd : string) (s : Session)
  : Z * option AdminMessage * Session :=
  match find_credentials uname pwd (head (globals s)) with
  | Some current =>
      if isAdmin current =? expectedAdmin
      then (isAdmin current, None, mkSession (globals s) uname)
      else (-1, Some MsgRoleDenied, s)
  | None => (-1, Some MsgInvalidLogin, s)
  end.

Definition logout (s : Session) : Session := mkSession (globals s) "".

(** Users are registered and deleted with what is typed. *)
Inductive UserOp :=
| OpRegister (uname pwd : string) (adm : Z)
| OpDeleteUser (id : Z).

Definition step_user (op : UserOp) (st : State) : State :=
  match op with
  | OpRegister uname pwd adm => snd (registerUser uname pwd adm st)
  | OpDeleteUser id => snd (deleteUser id st)
  end.

Definition run_users (ops : list UserOp) (st : State) : State :=
  fold_left (fun s op => step_user op s) ops st.

Definition addFlight (fn : Z) (org dst dep arr : string) (seats : Z)
                     (st : State) : AdminMessage * State :=
  if flightExists fn (flightsHead st) then (MsgFlightExists fn, st)
  else
    let newFlight := mkFlight fn org dst dep arr seats in
    (MsgFlightAdded, with_flightsHead (newFlight :: flightsHead st) st).

(** The loop of [deleteFlight]: the first node with the number is unlinked. *)
Fixpoint deleteFlight_loop (fn : Z) (flights : list Flight)
  : option (list Flight) :=
  match flights with
  | [] => None
  | current :: rest =>
      if flightNumber current =? fn then Some rest
      else
        match deleteFlight_loop fn rest with
        | Some rest' => Some (current :: rest')
        | None => None
        end
  end.

Definition deleteFlight (fn : Z) (st : State) : AdminMessage * State :=
  match deleteFlight_loop fn (flightsHead st) with
  | Some flights => (MsgFlightDeleted fn, with_flightsHead flights st)
  | None => (MsgFlightNotFound fn, st)
  end.

(** The loop of [editFlight]: every field but the number of the first node
    with the number is overwritten. *)
Fixpoint editFlight_loop (fn : Z) (org dst dep arr : string) (seats : Z)
                         (flights : list Flight) : option (list Flight) :=
  match flights with
  | [] => None
  | current :: rest =>
      if flightNumber current =? fn
      then Some (mkFlight (flightNumber current) org dst dep arr seats :: rest)
      else
        match editFlight_loop fn org dst dep arr seats rest with
        | Some rest' => Some (current :: rest')
        | None => None
        end
  end.

Definition editFlight (fn : Z) (org dst dep arr : string) (seats : Z)
                      (st : State) : AdminMessage * State :=
  match editFlight_loop fn org dst dep arr seats (flightsHead st) with
  | Some flights => (MsgFlightUpdated, with_flightsHead flights st)
  | None => (MsgFlightNotFound fn, st)
  end.

Definition addHotel (hid : Z) (nm loc : string) (rooms : Z) (st : State)
  : AdminMessage * State :=
  if hotelExists hid (hotelsHead st) then (MsgHotelExists hid, st)
  else
    let newHotel := mkHotel hid nm loc rooms in
    (MsgHotelAdded, with_hotelsHead (newHotel :: hotelsHead st) st).

Fixpoint deleteHotel_loop (hid : Z) (hotels : list Hotel)
  : option (list Hotel) :=
  match hotels with
  | [] => None
  | current :: rest =>
      if hotelID current =? hid then Some rest
      else
        match deleteHotel_loop hid rest with
        | Some rest' => Some (current :: rest')
        | None => None
        end
  end.

Definition deleteHotel (hid : Z) (st : State) : AdminMessage * State :=
  match deleteHotel_loop hid (hotelsHead st) with
  | Some hotels => (MsgHotelDeleted hid, with_hotelsHead hotels st)
  | None => (MsgHotelNotFound hid, st)
  end.

Fixpoint editHotel_loop (hid : Z) (nm loc : string) (rooms : Z)
                        (hotels : list Hotel) : option (list Hotel) :=
  match hotels with
  | [] => None
  | current :: rest =>
      if hotelID current =? hid
      then Some (mkHotel (hotelID current) nm loc rooms :: rest)
      else
        match editHotel_loop hid nm loc rooms rest with
        | Some rest' => Some (current :: rest')
        | None => None
        end
  end.

Definition editHotel (hid : Z) (nm loc : string) (rooms : Z) (st : State)
  : AdminMessage * State :=
  match editHotel_loop hid nm loc rooms (hotelsHead st) with
  | Some hotels => (MsgHotelUpdated, with_hotelsHead hotels st)
  | None => (MsgHotelNotFound hid, st)
  end.

(** The number [listHotelsUser] prints after "Rooms Available:" for one
    hotel node. *)
Definition shown_rooms (current : Hotel) (rs : list Reservation) : Z :=
  let pendingReservations :=
    countReservationsByHotel (hotelID current) "Pending" rs in
  let approvedReservations :=
    countReservationsByHotel (hotelID current) "Approved" rs in
  let availableRooms :=
    CInt.sub (roomsAvailable current)
             (CInt.add pendingReservations approvedReservations) in
  if availableRooms <? 0 then 0 else availableRooms.

Definition listHotelsUser (st : State) : list (Hotel * Z) :=
  map (fun current => (current, shown_rooms current (reservationsHead st)))
      (hotelsHead st).

(** The lines of [viewUserReservations]: ID, flight, hotel and status of the
    reservations whose user name compares equal, in list order. *)
Definition viewUserReservations (uname : string) (st : State)
  : list (Z * Z * Z * string) :=
  map (fun r => (reservationID r, res_flightNumber r, res_hotelID r, status r))
      (filter (fun r => String.eqb (res_username r) uname)
              (reservationsHead st)).

(** The lines of [listReservationsByStatus]: ID, user, flight and hotel. *)
Definition listReservationsByStatus (s : string) (st : State)
  : list (Z * string * Z * Z) :=
  map (fun r => (reservationID r, res_username r, res_flightNumber r,
                 res_hotelID r))
      (filter (fun r => String.eqb (status r) s) (reservationsHead st)).

Definition viewPendingReservations := listReservationsByStatus "Pending".
Definition viewRequestCanceledReservations :=
  listReservationsByStatus "Cancel Requested".
Definition viewAcceptedReservations := listReservationsByStatus "Accepted".
Definition viewCanceledReservations := listReservationsByStatus "Canceled".
Definition viewrRejectedReservations := listReservationsByStatus "Rejected".

(** ** Further quantities *)

(** The value the next call of [generateReservationID] increments. *)
Definition counter (st : State) : Z :=
  if lastID st =? 0 then loadLastReservationID st else lastID st.

(** The five statuses the operations write. *)
Definition status_known (r : Reservation) : bool :=
  String.eqb (status r) "Pending"
  || String.eqb (status r) "Approved"
  || String.eqb (status r) "Rejected"
  || String.eqb (status r) "Cancelled"
  || String.eqb (status r) "Cancel Requested".

(** What a new process finds: the globals as [main] loads them from the
    files the state leaves behind. *)
Definition restart (st : State) : State := main_load (disk st).

(** Closes [NoDup] goals on lists of literals. *)
Ltac distinct_literals :=
  repeat constructor; simpl;
  intros H; repeat (destruct H as [H|H]; [discriminate H|]); exact H.

(** * Properties *)

(** ** Arithmetic of [int] *)

Lemma wrap_in_range (z : Z) : CInt.in_range (CInt.wrap z).
Proof.
  unfold CInt.in_range, CInt.wrap, CInt.INT_MIN, CInt.INT_MAX.
  pose proof (Z.mod_pos_bound (z + 2147483648) 4294967296 eq_refl). lia.
Qed.

Lemma wrap_small (z : Z) : CInt.in_range z -> CInt.wrap z = z.
Proof.
  unfold CInt.in_range, CInt.wrap, CInt.INT_MIN, CInt.INT_MAX. intros H.
  rewrite Z.mod_small; lia.
Qed.

Lemma wrap_add_l (a b : Z) : CInt.wrap (CInt.wrap a + b) = CInt.wrap (a + b).
Proof.
  unfold CInt.wrap. f_equal.
  replace ((a + 2147483648) mod 4294967296 - 2147483648 + b + 2147483648)
    with ((a + 2147483648) mod 4294967296 + b) by lia.
  rewrite Zplus_mod_idemp_l. f_equal. lia.
Qed.

Lemma wrap_sub_r (a b : Z) : CInt.wrap (a - CInt.wrap b) = CInt.wrap (a - b).
Proof.
  unfold CInt.wrap. f_equal.
  replace (a - ((b + 2147483648) mod 4294967296 - 2147483648) + 2147483648)
    with (a + 4294967296 - (b + 2147483648) mod 4294967296) by lia.
  rewrite Zminus_mod_idemp_r. f_equal. lia.
Qed.

Lemma wrap_sub_l (a b : Z) : CInt.wrap (CInt.wrap a - b) = CInt.wrap (a - b).
Proof.
  replace (CInt.wrap a - b) with (CInt.wrap a + (- b)) by lia.
  now rewrite wrap_add_l.
Qed.

(** ** Counting loops against the mathematical tallies *)

Lemma tally_nonneg_flight fn s rs : 0 <= flight_tally fn s rs.
Proof. unfold flight_tally. lia. Qed.

Lemma tally_nonneg_hotel hid s rs : 0 <= hotel_tally hid s rs.
Proof. unfold hotel_tally. lia. Qed.

Lemma flight_tally_cons fn s r rs :
  flight_tally fn s (r :: rs)
  = (if refers_to_flight fn s r then 1 else 0) + flight_tally fn s rs.
Proof.
  unfold flight_tally. cbn [filter].
  destruct (refers_to_flight fn s r); cbn [List.length]; lia.
Qed.

Lemma hotel_tally_cons hid s r rs :
  hotel_tally hid s (r :: rs)
  = (if refers_to_hotel hid s r then 1 else 0) + hotel_tally hid s rs.
Proof.
  unfold hotel_tally. cbn [filter].
  destruct (refers_to_hotel hid s r); cbn [List.length]; lia.
Qed.

Lemma count_flight_loop_tally fn s rs :
  forall count, CInt.in_range count ->
  count_flight_loop fn s rs count = CInt.wrap (count + flight_tally fn s rs).
Proof.
  induction rs as [|r rs IH]; intros count Hc.
  - simpl. unfold flight_tally. simpl. rewrite Z.add_0_r.
    symmetry. now apply wrap_small.
  - simpl. rewrite flight_tally_cons. unfold refers_to_flight at 1.
    destruct ((res_flightNumber r =? fn) && String.eqb (status r) s).
    + rewrite IH by apply wrap_in_range.
      unfold CInt.add. rewrite wrap_add_l. f_equal. lia.
    + rewrite IH by assumption. f_equal.
Qed.

Lemma count_hotel_loop_tally hid s rs :
  forall count, CInt.in_range count ->
  count_hotel_loop hid s rs count = CInt.wrap (count + hotel_tally hid s rs).
Proof.
  induction rs as [|r rs IH]; intros count Hc.
  - simpl. unfold hotel_tally. simpl. rewrite Z.add_0_r.
    symmetry. now apply wrap_small.
  - simpl. rewrite hotel_tally_cons. unfold refers_to_hotel at 1.
    destruct ((res_hotelID r =? hid) && String.eqb (status r) s).
    + rewrite IH by apply wrap_in_range.
      unfold CInt.add. rewrite wrap_add_l. f_equal. lia.
    + rewrite IH by assumption. f_equal.
Qed.

Lemma zero_in_range : CInt.in_range 0.
Proof. unfold CInt.in_range, CInt.INT_MIN, CInt.INT_MAX. lia. Qed.

Lemma countReservationsByFlight_tally fn s rs :
  countReservationsByFlight fn s rs = CInt.wrap (flight_tally fn s rs).
Proof.
  unfold countReservationsByFlight.
  now rewrite count_flight_loop_tally by apply zero_in_range.
Qed.

Lemma countReservationsByHotel_tally hid s rs :
  countReservationsByHotel hid s rs = CInt.wrap (hotel_tally hid s rs).
Proof.
  unfold countReservationsByHotel.
  now rewrite count_hotel_loop_tally by apply zero_in_range.
Qed.

(** ** Look-ups *)

Lemma flightExists_In fn flights :
  flightExists fn flights = true <-> In fn (map flightNumber flights).
Proof.
  induction flights as [|f fs IH]; simpl.
  - split; [discriminate | tauto].
  - destruct (Z.eqb_spec (flightNumber f) fn) as [E|E].
    + split; auto.
    + rewrite IH. split; [auto | intros [H|H]; [contradiction | assumption]].
Qed.

Lemma hotelExists_In hid hotels :
  hotelExists hid hotels = true <-> In hid (map hotelID hotels).
Proof.
  induction hotels as [|h hs IH]; simpl.
  - split; [discriminate | tauto].
  - destruct (Z.eqb_spec (hotelID h) hid) as [E|E].
    + split; auto.
    + rewrite IH. split; [auto | intros [H|H]; [contradiction | assumption]].
Qed.

Lemma lookup_flight_Some fn flights f :
  lookup_flight fn flights = Some f -> flightNumber f = fn /\ In f flights.
Proof.
  induction flights as [|g fs IH]; simpl; [discriminate|].
  destruct (Z.eqb_spec (flightNumber g) fn) as [E|E]; simpl.
  - intros [= <-]. auto.
  - intros H. destruct (IH H). auto.
Qed.

Lemma lookup_hotel_Some hid hotels h :
  lookup_hotel hid hotels = Some h -> hotelID h = hid /\ In h hotels.
Proof.
  induction hotels as [|g hs IH]; simpl; [discriminate|].
  destruct (Z.eqb_spec (hotelID g) hid) as [E|E]; simpl.
  - intros [= <-]. auto.
  - intros H. destruct (IH H). auto.
Qed.

Lemma lookup_flight_None fn flights :
  ~ In fn (map flightNumber flights) -> lookup_flight fn flights = None.
Proof.
  intros H. destruct (lookup_flight fn flights) as [f|] eqn:E; [|reflexivity].
  apply lookup_flight_Some in E as [<- Hin]. exfalso. apply H.
  now apply in_map.
Qed.

Lemma lookup_hotel_None hid hotels :
  ~ In hid (map hotelID hotels) -> lookup_hotel hid hotels = None.
Proof.
  intros H. destruct (lookup_hotel hid hotels) as [h|] eqn:E; [|reflexivity].
  apply lookup_hotel_Some in E as [<- Hin]. exfalso. apply H.
  now apply in_map.
Qed.

(** A flight whose number occurs once in the list is the node the look-up
    stops at. *)
Lemma lookup_flight_unique flights f :
  NoDup (map flightNumber flights) -> In f flights ->
  lookup_flight (flightNumber f) flights = Some f.
Proof.
  induction flights as [|g fs IH]; simpl; [tauto|].
  intros Hnd [->|Hin].
  - now rewrite Z.eqb_refl.
  - inversion Hnd as [|? ? Hnot Hnd']; subst.
    destruct (Z.eqb_spec (flightNumber g) (flightNumber f)) as [E|E]; simpl.
    + exfalso. apply Hnot. rewrite E. now apply in_map.
    + now apply IH.
Qed.

(** ** Start-up with missing files *)

Lemma main_load_disk d : disk (main_load d) = d.
Proof.
  unfold main_load, loadReservationsFromFile, loadHotelsFromFile,
    loadFlightsFromFile, loadUsers, initial_state.
  destruct d as [u f h r l]; cbn.
  destruct u, f, h, r; reflexivity.
Qed.

Lemma main_load_lastID d : lastID (main_load d) = 0.
Proof.
  unfold main_load, loadReservationsFromFile, loadHotelsFromFile,
    loadFlightsFromFile, loadUsers, initial_state.
  destruct d as [u f h r l]; cbn.
  destruct u, f, h, r; reflexivity.
Qed.

(** C7.  When a persistence file cannot be opened at load time the
    corresponding collection starts empty: [loadUsers] leaves the user list
    empty without users.dat, [loadReservationsFromFile] leaves the
    reservation list empty without reservations.dat, and
    [loadLastReservationID] returns 1000 without last_id.txt (so the first
    identifier generated is 1001). *)
Theorem missing_file_starts_empty (d : Files) :
  (users_dat d = None ->
     head (loadUsers (initial_state d)) = [] /\ head (main_load d) = [])
  /\ (reservations_dat d = None ->
        reservationsHead (loadReservationsFromFile (initial_state d)) = []
        /\ reservationsHead (main_load d) = [])
  /\ (last_id_txt d = None ->
        loadLastReservationID (main_load d) = 1000
        /\ fst (generateReservationID (main_load d)) = 1001).
Proof.
  destruct d as [u f h r l]; cbn [users_dat reservations_dat last_id_txt].
  split; [|split]; intros ->; split.
  - reflexivity.
  - unfold main_load, loadReservationsFromFile, loadHotelsFromFile,
      loadFlightsFromFile, loadUsers, initial_state; cbn.
    destruct f, h, r; reflexivity.
  - reflexivity.
  - unfold main_load, loadReservationsFromFile, loadHotelsFromFile,
      loadFlightsFromFile, loadUsers, initial_state; cbn.
    destruct u, f, h; reflexivity.
  - unfold loadLastReservationID. now rewrite main_load_disk.
  - unfold generateReservationID, loadLastReservationID.
    rewrite main_load_lastID, main_load_disk. reflexivity.
Qed.

Lemma missing_file_starts_empty_witness :
  head (main_load no_files) = []
  /\ reservationsHead (main_load no_files) = []
  /\ loadLastReservationID (main_load no_files) = 1000.
Proof.
  destruct (missing_file_starts_empty no_files) as [Hu [Hr Hl]].
  split; [apply (Hu eq_refl) | split; [apply (Hr eq_refl) | apply (Hl eq_refl)]].
Defined.

(** ** Bookings of keys that do not exist *)

(** C8.  For a flight number that is not in the flight list
    [calculateAvailableSeats] returns 0, and for a hotel ID that is not in
    the hotel list [calculateAvailableRooms] returns 0; consequently
    [makeFlightReservation] and [makeHotelReservation] create nothing for
    such a key and leave the whole state, the reservation list included,
    as it was. *)
Theorem absent_key_refused (uname : string) (key : Z) (st : State) :
  (~ In key (map flightNumber (flightsHead st)) ->
     calculateAvailableSeats key st = 0
     /\ makeFlightReservation uname key st
        = (if key =? 0 then MsgExiting else MsgFullyBooked, st))
  /\ (~ In key (map hotelID (hotelsHead st)) ->
        calculateAvailableRooms key st = 0
        /\ makeHotelReservation uname key st
           = (if key =? 0 then MsgExiting else MsgHotelUnavailable, st)).
Proof.
  split; intros Habsent.
  - assert (H0 : calculateAvailableSeats key st = 0).
    { unfold calculateAvailableSeats. now rewrite lookup_flight_None. }
    split; [assumption|].
    unfold makeFlightReservation. rewrite H0.
    destruct (key =? 0); reflexivity.
  - assert (H0 : calculateAvailableRooms key st = 0).
    { unfold calculateAvailableRooms. now rewrite lookup_hotel_None. }
    split; [assumption|].
    unfold makeHotelReservation. rewrite H0.
    destruct (key =? 0); reflexivity.
Qed.

Lemma absent_key_refused_witness :
  calculateAvailableSeats 99 (sample_state []) = 0
  /\ makeFlightReservation "ana" 99 (sample_state [])
     = (MsgFullyBooked, sample_state [])
  /\ calculateAvailableRooms 99 (sample_state []) = 0
  /\ makeHotelReservation "ana" 99 (sample_state [])
     = (MsgHotelUnavailable, sample_state []).
Proof.
  destruct (absent_key_refused "ana" 99 (sample_state [])) as [Hf Hh].
  assert (Nf : ~ In 99 (map flightNumber (flightsHead (sample_state [])))).
  { simpl. intros [H|[H|[]]]; discriminate H. }
  assert (Nh : ~ In 99 (map hotelID (hotelsHead (sample_state [])))).
  { simpl. intros [H|[]]; discriminate H. }
  destruct (Hf Nf) as [H1 H2]. destruct (Hh Nh) as [H3 H4].
  repeat split; assumption.
Defined.

(** ** Registration *)

Lemma username_exists_In uname users :
  username_exists uname users = true <-> In uname (map username users).
Proof.
  induction users as [|u us IH]; simpl.
  - split; [discriminate | tauto].
  - destruct (String.eqb_spec (username u) uname) as [E|E].
    + split; auto.
    + rewrite IH. split; [auto | intros [H|H]; [contradiction | assumption]].
Qed.

Lemma NoDup_snoc {A : Type} (l : list A) (x : A) :
  NoDup l -> ~ In x l -> NoDup (l ++ [x]).
Proof.
  induction l as [|a l IH]; simpl; intros Hnd Hx.
  - constructor; [tauto | constructor].
  - inversion Hnd as [|? ? Ha Hl]; subst. constructor.
    + rewrite in_app_iff. simpl. intros [H|[H|[]]]; [tauto|]. subst. tauto.
    + apply IH; tauto.
Qed.

(** C6.  User names are a unique key.  On a user list whose names are all
    distinct, [registerUser] with a name that is already there reports the
    duplicate and leaves the state unchanged, [registerUser] with a fresh
    name appends exactly one user (the new one, at the end) and writes the
    list to users.dat, and in both cases the names stay distinct. *)
Theorem registerUser_unique_key (uname pwd : string) (adm : Z) (st : State) :
  NoDup (map username (head st)) ->
  (In uname (map username (head st)) ->
     registerUser uname pwd adm st = (MsgUsernameExists, st))
  /\ (~ In uname (map username (head st)) ->
        registerUser uname pwd adm st
        = (MsgRegistered,
           saveUsers (with_head (head st ++ [mkUser uname pwd adm]) st)))
  /\ NoDup (map username (head (snd (registerUser uname pwd adm st)))).
Proof.
  intros Hnd. unfold registerUser.
  destruct (username_exists uname (head st)) eqn:E.
  - apply username_exists_In in E. repeat split; [tauto | assumption].
  - assert (Hfresh : ~ In uname (map username (head st))).
    { intros H. apply username_exists_In in H. congruence. }
    repeat split; [tauto|].
    cbn. rewrite map_app. now apply NoDup_snoc.
Qed.

Lemma registerUser_unique_key_witness :
  registerUser "ana" "x" 0 (sample_state [])
  = (MsgUsernameExists, sample_state [])
  /\ head (snd (registerUser "eva" "y" 0 (sample_state [])))
     = sample_users ++ [mkUser "eva" "y" 0].
Proof.
  assert (Hnd : NoDup (map username (head (sample_state [])))).
  { simpl. repeat constructor; simpl; intros H;
      repeat (destruct H as [H|H]; [discriminate H|]); exact H. }
  split.
  - destruct (registerUser_unique_key "ana" "x" 0 (sample_state []) Hnd)
      as [Hdup _].
    apply Hdup. simpl. auto.
  - destruct (registerUser_unique_key "eva" "y" 0 (sample_state []) Hnd)
      as [_ [Hnew _]].
    rewrite Hnew; [reflexivity|].
    simpl. intros H. repeat (destruct H as [H|H]; [discriminate H|]). exact H.
Defined.

(** ** Addressing a reservation by its identifier *)

Lemma restatus_absent resID s rs :
  ~ In resID (map reservationID rs) -> restatus resID s rs = rs.
Proof.
  induction rs as [|x rs IH]; simpl; intros H; [reflexivity|].
  destruct (Z.eqb_spec (reservationID x) resID) as [E|E]; [tauto|].
  f_equal. apply IH. tauto.
Qed.

(** A reservation whose identifier occurs once in the list is the node the
    search by identifier stops at. *)
Lemma find_reservation_unique r rs :
  NoDup (map reservationID rs) -> In r rs ->
  find_reservation (reservationID r) rs = Some r.
Proof.
  induction rs as [|x rs IH]; simpl; [tauto|].
  intros Hnd Hin. inversion Hnd as [|? ? Hx Hrs]; subst.
  destruct Hin as [->|Hin].
  - now rewrite Z.eqb_refl.
  - destruct (Z.eqb_spec (reservationID x) (reservationID r)) as [E|E]; simpl.
    + exfalso. apply Hx. rewrite E. now apply in_map.
    + now apply IH.
Qed.

(** With distinct identifiers, [restatus] rewrites the one node [r]. *)
Lemma restatus_unique r s rs :
  NoDup (map reservationID rs) -> In r rs ->
  exists pre post,
    rs = pre ++ r :: post
    /\ restatus (reservationID r) s rs = pre ++ set_status r s :: post.
Proof.
  intros Hnd Hin. destruct (in_split _ _ Hin) as [pre [post ->]].
  exists pre, post. split; [reflexivity|].
  rewrite map_app in Hnd. simpl in Hnd.
  pose proof (NoDup_remove_2 _ _ _ Hnd) as Hout.
  rewrite in_app_iff in Hout.
  unfold restatus. rewrite map_app. simpl. rewrite Z.eqb_refl.
  fold (restatus (reservationID r) s pre).
  fold (restatus (reservationID r) s post).
  rewrite !restatus_absent by tauto. reflexivity.
Qed.

Lemma cancel_loop_unique uname r rs :
  NoDup (map reservationID rs) -> In r rs -> res_username r = uname ->
  cancel_loop uname (reservationID r) rs
  = if String.eqb (status r) "Approved"
    then (MsgCancelSubmitted,
          restatus (reservationID r) "Cancel Requested" rs)
    else (MsgOnlyApproved, rs).
Proof.
  intros Hnd Hin Hu. induction rs as [|x rs IH]; simpl; [destruct Hin|].
  inversion Hnd as [|? ? Hx Hrs]; subst.
  destruct Hin as [->|Hin].
  - rewrite Z.eqb_refl, String.eqb_refl. simpl.
    rewrite restatus_absent by assumption.
    destruct (String.eqb (status r) "Approved"); reflexivity.
  - destruct (Z.eqb_spec (reservationID x) (reservationID r)) as [E|E]; simpl.
    + exfalso. apply Hx. rewrite E. now apply in_map.
    + rewrite (IH Hrs Hin).
      destruct (String.eqb (status r) "Approved"); reflexivity.
Qed.

(** With distinct keys, a list splits around an element in one way only. *)
Lemma split_unique {A B : Type} (key : A -> B) (x : A) :
  forall pre post pre' post',
  NoDup (map key (pre ++ x :: post)) ->
  pre ++ x :: post = pre' ++ x :: post' ->
  pre = pre' /\ post = post'.
Proof.
  induction pre as [|a pre IH]; intros post pre' post' Hnd Heq.
  - destruct pre' as [|b pre']; cbn in Heq.
    + injection Heq as ->. auto.
    + exfalso. injection Heq as <- ->. cbn in Hnd.
      inversion Hnd as [|? ? Hnot _]; subst. apply Hnot.
      rewrite map_app. apply in_or_app. right. now left.
  - destruct pre' as [|b pre']; cbn in Heq.
    + exfalso. injection Heq as -> _. cbn in Hnd.
      inversion Hnd as [|? ? Hnot _]; subst. apply Hnot.
      rewrite map_app. apply in_or_app. right. now left.
    + injection Heq as <- Heq. cbn in Hnd.
      inversion Hnd as [|? ? _ Hnd']; subst.
      destruct (IH _ _ _ Hnd' Heq) as [-> ->]. auto.
Qed.

(** ** Cancellation requests *)

(** C3.  For a reservation [r] of the requesting user, requested by its
    identifier (identifiers distinct, and not 0, the value that leaves the
    prompt), [cancelUserReservation] changes the status of [r], to "Cancel
    Requested", exactly when the status of [r] is "Approved": the
    reservation list afterwards is the old one with "Cancel Requested" in
    that node.  In every other status the request is rejected with "Only
    approved reservations can be cancelled." and the state, hence the
    reservation list, is unchanged. *)
Theorem cancel_only_from_approved (uname : string) (r : Reservation)
                                  (st : State) :
  NoDup (map reservationID (reservationsHead st)) ->
  In r (reservationsHead st) ->
  res_username r = uname ->
  reservationID r <> 0 ->
  exists pre post,
    reservationsHead st = pre ++ r :: post
    /\ (status r = "Approved" ->
          cancelUserReservation uname (reservationID r) st
          = (MsgCancelSubmitted,
             saveReservationsToFile
               (with_reservationsHead
                  (pre ++ set_status r "Cancel Requested" :: post) st))
          /\ reservationsHead
               (snd (cancelUserReservation uname (reservationID r) st))
             = pre ++ mkReservation (reservationID r) (res_username r)
                                    (res_flightNumber r) (res_hotelID r)
                                    "Cancel Requested" :: post)
    /\ (status r <> "Approved" ->
          cancelUserReservation uname (reservationID r) st
          = (MsgOnlyApproved, st)
          /\ reservationsHead
               (snd (cancelUserReservation uname (reservationID r) st))
             = pre ++ r :: post).
Proof.
  intros Hnd Hin Hu Hid.
  destruct (restatus_unique r "Cancel Requested" _ Hnd Hin)
    as [pre [post [Hrs Hre]]].
  exists pre, post. split; [exact Hrs|].
  unfold cancelUserReservation.
  apply Z.eqb_neq in Hid. rewrite Hid.
  rewrite (cancel_loop_unique uname r _ Hnd Hin Hu), Hre.
  split; intros Hs.
  - rewrite Hs. split; reflexivity.
  - apply String.eqb_neq in Hs. rewrite Hs. split; [reflexivity | exact Hrs].
Qed.

(** ** Approval *)

Lemma handleReservationApproval_found resID decision st r :
  resID <> 0 ->
  find_reservation resID (reservationsHead st) = Some r ->
  handleReservationApproval resID decision st
  = if String.eqb decision "yes" then
      (MsgApproved,
       saveReservationsToFile
         (with_reservationsHead
            (write_status resID "Approved" (reservationsHead st)) st))
    else if String.eqb decision "no" then
      (MsgRejected,
       saveReservationsToFile
         (with_reservationsHead
            (write_status resID "Rejected" (reservationsHead st)) st))
    else (MsgInvalid, saveReservationsToFile st).
Proof.
  intros Hid Hfind. unfold handleReservationApproval.
  apply Z.eqb_neq in Hid. now rewrite Hid, Hfind.
Qed.

(** The node [find_reservation] stops at is the one [write_status] rewrites;
    the nodes before and after it stay as they are. *)
Lemma write_status_found resID r rs :
  find_reservation resID rs = Some r ->
  exists pre post,
    rs = pre ++ r :: post
    /\ forall s, write_status resID s rs = pre ++ set_status r s :: post.
Proof.
  induction rs as [|x rs IH]; simpl; [discriminate|].
  destruct (negb (reservationID x =? resID)).
  - intros H. destruct (IH H) as [pre [post [-> Hw]]].
    exists (x :: pre), post. split; [reflexivity|].
    intros s. simpl. now rewrite Hw.
  - intros [= ->]. exists [], rs. split; [reflexivity|]. reflexivity.
Qed.

(** C9.  [handleReservationApproval] puts no condition on the current
    status of the reservation it targets and does not look at the remaining
    seats or rooms: once an identifier other than the exit value 0 finds a
    reservation [r], whatever the status of [r] and whatever the flights
    and hotels, the decision "yes" sets the status of [r] to "Approved" and
    "no" sets it to "Rejected": the reservation list afterwards is the old
    one with that status in the node of [r]. *)
Theorem approval_has_no_precondition (resID : Z) (r : Reservation)
                                     (st : State) :
  resID <> 0 ->
  find_reservation resID (reservationsHead st) = Some r ->
  exists pre post,
    reservationsHead st = pre ++ r :: post
    /\ handleReservationApproval resID "yes" st
       = (MsgApproved,
          saveReservationsToFile
            (with_reservationsHead
               (pre ++ set_status r "Approved" :: post) st))
    /\ reservationsHead (snd (handleReservationApproval resID "yes" st))
       = pre ++ mkReservation (reservationID r) (res_username r)
                              (res_flightNumber r) (res_hotelID r)
                              "Approved" :: post
    /\ handleReservationApproval resID "no" st
       = (MsgRejected,
          saveReservationsToFile
            (with_reservationsHead
               (pre ++ set_status r "Rejected" :: post) st))
    /\ reservationsHead (snd (handleReservationApproval resID "no" st))
       = pre ++ mkReservation (reservationID r) (res_username r)
                              (res_flightNumber r) (res_hotelID r)
                              "Rejected" :: post.
Proof.
  intros Hid Hfind.
  destruct (write_status_found _ _ _ Hfind) as [pre [post [Hrs Hw]]].
  exists pre, post. split; [exact Hrs|].
  rewrite !(handleReservationApproval_found _ _ _ r Hid Hfind). cbn.
  rewrite !Hw. repeat split.
Qed.

Lemma sample_reservation_ids_distinct :
  NoDup (map reservationID (reservationsHead (sample_state sample_reservations))).
Proof. distinct_literals. Defined.

Lemma sample_flight_numbers_distinct :
  NoDup (map flightNumber (flightsHead (sample_state sample_reservations))).
Proof. distinct_literals. Defined.

Lemma cancel_only_from_approved_witness :
  reservationsHead
    (snd (cancelUserReservation "ana" 1002 (sample_state sample_reservations)))
  = [mkReservation 1003 "rui" (-1) 7 "Pending";
     mkReservation 1002 "ana" 20 (-1) "Cancel Requested";
     mkReservation 1001 "ana" 20 (-1) "Pending"]
  /\ fst (cancelUserReservation "ana" 1002 (sample_state sample_reservations))
     = MsgCancelSubmitted.
Proof.
  destruct (cancel_only_from_approved "ana"
              (mkReservation 1002 "ana" 20 (-1) "Approved")
              (sample_state sample_reservations)
              sample_reservation_ids_distinct)
    as [pre [post [Hrs [Hyes _]]]].
  - simpl. auto.
  - reflexivity.
  - simpl. discriminate.
  - destruct (Hyes eq_refl) as [Hcall Hlist].
    destruct (split_unique reservationID
                (mkReservation 1002 "ana" 20 (-1) "Approved")
                [mkReservation 1003 "rui" (-1) 7 "Pending"]
                [mkReservation 1001 "ana" 20 (-1) "Pending"] pre post
                sample_reservation_ids_distinct Hrs) as [<- <-].
    split; [exact Hlist | exact (f_equal fst Hcall)].
Defined.

Lemma approval_has_no_precondition_witness :
  reservationsHead
    (snd (handleReservationApproval 1002 "no"
            (sample_state sample_reservations)))
  = [mkReservation 1003 "rui" (-1) 7 "Pending";
     mkReservation 1002 "ana" 20 (-1) "Rejected";
     mkReservation 1001 "ana" 20 (-1) "Pending"]
  /\ reservationsHead
       (snd (handleReservationApproval 1002 "yes"
               (sample_state sample_reservations)))
     = sample_reservations.
Proof.
  destruct (approval_has_no_precondition 1002
              (mkReservation 1002 "ana" 20 (-1) "Approved")
              (sample_state sample_reservations))
    as [pre [post [Hrs [_ [Hyes [_ Hno]]]]]].
  - discriminate.
  - reflexivity.
  - destruct (split_unique reservationID
                (mkReservation 1002 "ana" 20 (-1) "Approved")
                [mkReservation 1003 "rui" (-1) 7 "Pending"]
                [mkReservation 1001 "ana" 20 (-1) "Pending"] pre post
                sample_reservation_ids_distinct Hrs) as [<- <-].
    split; [exact Hno | exact Hyes].
Defined.

(** ** Availability accounting *)

Lemma flight_tally_app fn s a b :
  flight_tally fn s (a ++ b) = flight_tally fn s a + flight_tally fn s b.
Proof.
  unfold flight_tally. rewrite filter_app, length_app. lia.
Qed.

Lemma lookup_flight_In fn flights :
  In fn (map flightNumber flights) ->
  exists f, lookup_flight fn flights = Some f.
Proof.
  induction flights as [|g fs IH]; simpl; [tauto|].
  intros H. destruct (Z.eqb_spec (flightNumber g) fn) as [E|E]; simpl.
  - now exists g.
  - apply IH. tauto.
Qed.

(** Approving a reservation of a flight that was not Approved adds one to
    the Approved tally of the flight. *)
Lemma flight_tally_after_approval r pre post :
  status r <> "Approved" ->
  flight_tally (res_flightNumber r) "Approved"
               (pre ++ set_status r "Approved" :: post)
  = flight_tally (res_flightNumber r) "Approved" (pre ++ r :: post) + 1.
Proof.
  intros Hs.
  rewrite !flight_tally_app, !flight_tally_cons.
  unfold refers_to_flight. cbn [set_status res_flightNumber status].
  rewrite Z.eqb_refl. apply String.eqb_neq in Hs. rewrite Hs.
  rewrite String.eqb_refl. cbn [andb]. lia.
Qed.

Lemma calculateAvailableSeats_tally fn st f :
  lookup_flight fn (flightsHead st) = Some f ->
  calculateAvailableSeats fn st
  = CInt.wrap (seatsAvailable f
               - flight_tally fn "Approved" (reservationsHead st)).
Proof.
  intros H. unfold calculateAvailableSeats. rewrite H.
  rewrite countReservationsByFlight_tally. unfold CInt.sub.
  apply wrap_sub_r.
Qed.

(** C4.  For a flight in the flight list, when [handleReservationApproval]
    moves a reservation [r] of that flight to "Approved" ([r] is the
    reservation the identifier finds and was not Approved before; no other
    reservation and no flight changes), [calculateAvailableSeats] for the
    flight goes down by exactly 1, as long as the result does not leave the
    range of [int]. *)
Theorem approval_takes_one_seat (resID : Z) (r : Reservation) (st : State) :
  resID <> 0 ->
  find_reservation resID (reservationsHead st) = Some r ->
  status r <> "Approved" ->
  In (res_flightNumber r) (map flightNumber (flightsHead st)) ->
  CInt.INT_MIN < calculateAvailableSeats (res_flightNumber r) st ->
  let st' := snd (handleReservationApproval resID "yes" st) in
  flightsHead st' = flightsHead st
  /\ (exists pre post,
        reservationsHead st = pre ++ r :: post
        /\ reservationsHead st' = pre ++ set_status r "Approved" :: post)
  /\ calculateAvailableSeats (res_flightNumber r) st'
     = calculateAvailableSeats (res_flightNumber r) st - 1.
Proof.
  intros Hid Hfind Hs Hfl Hlow st'.
  destruct (write_status_found _ _ _ Hfind) as [pre [post [Hrs Hw]]].
  assert (Est : st' = saveReservationsToFile
                        (with_reservationsHead
                           (pre ++ set_status r "Approved" :: post) st)).
  { unfold st'. rewrite (handleReservationApproval_found _ _ _ r Hid Hfind).
    cbn. now rewrite Hw. }
  split; [now rewrite Est|].
  split; [exists pre, post; split; [exact Hrs | now rewrite Est]|].
  destruct (lookup_flight_In _ _ Hfl) as [f Hf].
  rewrite (calculateAvailableSeats_tally _ st f Hf) in *.
  rewrite (calculateAvailableSeats_tally _ st' f) by now rewrite Est.
  replace (reservationsHead st')
    with (pre ++ set_status r "Approved" :: post) by now rewrite Est.
  rewrite Hrs in *.
  rewrite flight_tally_after_approval by assumption.
  set (T := flight_tally (res_flightNumber r) "Approved" (pre ++ r :: post))
    in *.
  replace (seatsAvailable f - (T + 1)) with (seatsAvailable f - T - 1) by lia.
  rewrite <- wrap_sub_l. apply wrap_small.
  pose proof (wrap_in_range (seatsAvailable f - T)) as Hr.
  unfold CInt.in_range in *. unfold CInt.INT_MAX in *. lia.
Qed.

Lemma approval_takes_one_seat_witness :
  calculateAvailableSeats 20 (sample_state sample_reservations) = 2
  /\ calculateAvailableSeats 20
       (snd (handleReservationApproval 1001 "yes"
               (sample_state sample_reservations))) = 2 - 1.
Proof.
  split; [reflexivity|].
  apply (approval_takes_one_seat 1001
           (mkReservation 1001 "ana" 20 (-1) "Pending")
           (sample_state sample_reservations)).
  - discriminate.
  - reflexivity.
  - simpl. discriminate.
  - simpl. auto.
  - vm_compute. reflexivity.
Defined.

(** C10.  For every flight (flight numbers distinct), [listFlightsUser]
    prints one line, and the seat count on it is max(0, seatsAvailable -
    (Pending count + Approved count)), computed without leaving the range of
    [int]; whenever the value of [calculateAvailableSeats] (seatsAvailable -
    Approved count, the one that lets a booking through) is non-negative the
    shown count is at most that value, and it is strictly smaller whenever
    there is at least one Pending reservation of the flight and the shown
    count is positive. *)
Theorem shown_seats_below_bookable (f : Flight) (st : State) :
  let pending :=
    flight_tally (flightNumber f) "Pending" (reservationsHead st) in
  let approved :=
    flight_tally (flightNumber f) "Approved" (reservationsHead st) in
  let bookable := calculateAvailableSeats (flightNumber f) st in
  let shown := Z.max 0 (seatsAvailable f - (pending + approved)) in
  NoDup (map flightNumber (flightsHead st)) ->
  In f (flightsHead st) ->
  seatsAvailable f <= CInt.INT_MAX ->
  CInt.INT_MIN <= seatsAvailable f - (pending + approved) ->
  map fst (listFlightsUser st) = flightsHead st
  /\ In (f, shown) (listFlightsUser st)
  /\ (forall n, In (f, n) (listFlightsUser st) -> n = shown)
  /\ bookable = seatsAvailable f - approved
  /\ (0 <= bookable -> shown <= bookable)
  /\ (1 <= pending -> 0 < shown -> shown < bookable).
Proof.
  intros pending approved bookable shown Hnd Hin Hhi Hlo.
  pose proof (tally_nonneg_flight (flightNumber f) "Pending"
                (reservationsHead st)) as HP.
  pose proof (tally_nonneg_flight (flightNumber f) "Approved"
                (reservationsHead st)) as HA.
  fold pending in HP. fold approved in HA.
  assert (Hb : bookable = seatsAvailable f - approved).
  { unfold bookable.
    rewrite (calculateAvailableSeats_tally _ st f)
      by now apply lookup_flight_unique.
    apply wrap_small. unfold CInt.in_range. fold approved. lia. }
  assert (Hs : shown_seats f (reservationsHead st) = shown).
  { unfold shown_seats.
    rewrite !countReservationsByFlight_tally. fold pending approved.
    unfold CInt.sub, CInt.add.
    rewrite wrap_add_l, (Z.add_comm pending), wrap_add_l.
    rewrite (Z.add_comm approved), wrap_sub_r.
    rewrite (wrap_small (seatsAvailable f - (pending + approved)))
      by (unfold CInt.in_range; lia).
    unfold shown.
    destruct (Z.ltb_spec (seatsAvailable f - (pending + approved)) 0); lia. }
  split.
  { unfold listFlightsUser. rewrite map_map. cbn [fst]. apply map_id. }
  split.
  { unfold listFlightsUser. apply in_map_iff. exists f.
    split; [now rewrite Hs | exact Hin]. }
  split.
  { intros n Hn. unfold listFlightsUser in Hn. apply in_map_iff in Hn.
    destruct Hn as [g [Heq _]]. injection Heq as -> <-. exact Hs. }
  split; [exact Hb|]. unfold shown. split; lia.
Qed.

Lemma shown_seats_below_bookable_witness :
  listFlightsUser (sample_state sample_reservations)
  = [(mkFlight 10 "OPO" "LIS" "08:00" "09:00" 1, 1);
     (mkFlight 20 "LIS" "FNC" "10:00" "12:00" 3, 1)]
  /\ In (mkFlight 20 "LIS" "FNC" "10:00" "12:00" 3, 1)
        (listFlightsUser (sample_state sample_reservations))
  /\ calculateAvailableSeats 20 (sample_state sample_reservations) = 3 - 1
  /\ 1 < calculateAvailableSeats 20 (sample_state sample_reservations).
Proof.
  destruct (shown_seats_below_bookable
              (mkFlight 20 "LIS" "FNC" "10:00" "12:00" 3)
              (sample_state sample_reservations)
              sample_flight_numbers_distinct) as [_ [H1 [_ [H2 [_ H4]]]]].
  - simpl. auto.
  - vm_compute. discriminate.
  - vm_compute. discriminate.
  - split; [reflexivity|]. split; [exact H1|]. split; [exact H2|]. apply H4.
    + vm_compute. discriminate.
    + reflexivity.
Defined.

(** ** Identifiers *)

(** The value the next call of [generateReservationID] increments. *)
Lemma generateReservationID_next st :
  let loaded := if lastID st =? 0 then loadLastReservationID st else lastID st in
  0 <= loaded -> loaded + 1 <= CInt.INT_MAX ->
  fst (generateReservationID st) = loaded + 1
  /\ lastID (snd (generateReservationID st)) = loaded + 1
  /\ disk (snd (generateReservationID st)) = disk st.
Proof.
  intros loaded H0 H1. unfold generateReservationID. fold loaded. cbn.
  unfold CInt.add. rewrite wrap_small; [auto|].
  unfold CInt.in_range, CInt.INT_MIN. lia.
Qed.

Lemma strictly_increasing_last ids :
  strictly_increasing ids -> forall a, In a ids -> a <= last ids 0.
Proof.
  induction ids as [|x ids IH]; [intros _ a []|].
  intros [Hx Hrest] a Hin. destruct ids as [|y ids].
  - destruct Hin as [->|[]]. simpl. lia.
  - change (last (x :: y :: ids) 0) with (last (y :: ids) 0).
    destruct Hin as [<-|Hin].
    + pose proof (IH Hrest y (or_introl eq_refl)).
      pose proof (Hx y (or_introl eq_refl)). lia.
    + now apply IH.
Qed.

(** From a counter that is positive, or zero with a non-negative value in
    last_id.txt, a run draws consecutive identifiers. *)
Lemma run_ids_consecutive ops :
  forall st,
  let loaded := if lastID st =? 0 then loadLastReservationID st else lastID st in
  0 <= loaded ->
  loaded + Z.of_nat (List.length ops) <= CInt.INT_MAX ->
  strictly_increasing (fst (run_ids ops st))
  /\ (forall id, In id (fst (run_ids ops st)) ->
        loaded < id <= loaded + Z.of_nat (List.length ops)).
Proof.
  induction ops as [|op ops IH]; intros st loaded H0 H1.
  - simpl. split; [exact I | intros id []].
  - cbn [List.length] in H1 |- *.
    destruct (generateReservationID_next st) as [Hid [Hlast Hdisk]];
      [exact H0 | fold loaded; lia |]. fold loaded in Hid, Hlast.
    cbn [run_ids].
    destruct (generateReservationID st) as [id st1] eqn:Eg.
    cbn [fst snd] in Hid, Hlast, Hdisk.
    set (st2 := match op with
                | Draw => st1
                | DrawAndSave => saveLastReservationID id st1
                end).
    assert (Hl2 : lastID st2 = loaded + 1) by (destruct op; exact Hlast).
    specialize (IH st2). cbv zeta in IH. rewrite Hl2 in IH.
    replace (loaded + 1 =? 0) with false in IH by (symmetry; apply Z.eqb_neq; lia).
    destruct IH as [IHs IHb]; [lia | lia |].
    destruct (run_ids ops st2) as [ids st3]. cbn [fst] in *.
    subst id. split.
    + split; [|exact IHs]. intros later Hl. specialize (IHb later Hl). lia.
    + intros x [<-|Hx]; [lia|]. specialize (IHb x Hx). lia.
Qed.

(** After case 3 or 4 of [userMenu], last_id.txt holds the identifier drawn
    last, whether or not a reservation was made. *)
Lemma userMenu_saves_last_drawn uname key st :
  last_id_txt (disk (snd (userMenu_case3 uname key st)))
  = Some (lastID (snd (userMenu_case3 uname key st)))
  /\ last_id_txt (disk (snd (userMenu_case4 uname key st)))
     = Some (lastID (snd (userMenu_case4 uname key st))).
Proof.
  split.
  - unfold userMenu_case3.
    destruct (makeFlightReservation uname key st) as [m st1]. reflexivity.
  - unfold userMenu_case4.
    destruct (makeHotelReservation uname key st) as [m st1]. reflexivity.
Qed.

(** C2, as the code has it.  Started with last_id.txt missing or holding a
    value that is not negative, and as long as the counter stays within
    [int], every call of [generateReservationID] in a run returns more than
    all earlier calls of the run; and when the last identifier issued is in
    last_id.txt at the end of the run (written by [saveLastReservationID])
    and read back by [loadLastReservationID] in a later run, every
    identifier of the later run is greater than every identifier of the
    earlier one. *)
Theorem ids_increase_from_nonnegative_counter
        (d : Files) (ops1 ops2 : list IdOp) :
  let start := loadLastReservationID (main_load d) in
  let ids1 := fst (run_ids ops1 (main_load d)) in
  let st1 := snd (run_ids ops1 (main_load d)) in
  let ids2 := fst (run_ids ops2 (main_load (disk st1))) in
  0 <= start ->
  start + Z.of_nat (List.length ops1 + List.length ops2) <= CInt.INT_MAX ->
  strictly_increasing ids1
  /\ (ids1 <> [] ->
      last_id_txt (disk st1) = Some (last ids1 0) ->
      strictly_increasing ids2
      /\ forall a b, In a ids1 -> In b ids2 -> a < b).
Proof.
  intros start ids1 st1 ids2 H0 H1.
  pose proof (run_ids_consecutive ops1 (main_load d)) as R1.
  cbv zeta in R1. rewrite main_load_lastID in R1.
  change (0 =? 0) with true in R1. cbv iota in R1. fold start ids1 in R1.
  destruct R1 as [Hs1 Hb1]; [exact H0 | lia |].
  split; [exact Hs1|]. intros Hne Hsaved.
  assert (Hlast : In (last ids1 0) ids1).
  { destruct ids1 as [|x l]; [congruence|].
    rewrite (app_removelast_last 0 (l := x :: l)) at 2 by discriminate.
    apply in_or_app. right. now left. }
  pose proof (Hb1 _ Hlast) as HL.
  pose proof (run_ids_consecutive ops2 (main_load (disk st1))) as R2.
  cbv zeta in R2. rewrite main_load_lastID in R2.
  change (0 =? 0) with true in R2. cbv iota in R2.
  unfold loadLastReservationID in R2. rewrite main_load_disk, Hsaved in R2.
  fold ids2 in R2.
  destruct R2 as [Hs2 Hb2]; [lia | lia |].
  split; [exact Hs2|]. intros a b Ha Hb.
  pose proof (strictly_increasing_last ids1 Hs1 a Ha).
  specialize (Hb2 b Hb). lia.
Qed.

Lemma ids_increase_from_nonnegative_counter_witness :
  fst (run_ids [Draw; DrawAndSave] (main_load no_files)) = [1001; 1002]
  /\ strictly_increasing (fst (run_ids [Draw; DrawAndSave] (main_load no_files)))
  /\ forall a b,
       In a (fst (run_ids [Draw; DrawAndSave] (main_load no_files))) ->
       In b (fst (run_ids [DrawAndSave; Draw]
                    (main_load
                       (disk (snd (run_ids [Draw; DrawAndSave]
                                     (main_load no_files))))))) ->
       a < b.
Proof.
  split; [reflexivity|].
  destruct (ids_increase_from_nonnegative_counter
              no_files [Draw; DrawAndSave] [DrawAndSave; Draw]) as [H1 H2].
  - vm_compute. discriminate.
  - vm_compute. discriminate.
  - split; [exact H1|]. apply H2.
    + vm_compute. discriminate.
    + reflexivity.
Defined.

(** C2 as stated fails: with -1 in last_id.txt the first call returns 0,
    which is also the value that makes the next call read the file again,
    so two calls in a row both return 0. *)
Lemma ids_repeat_after_zero :
  fst (run_ids [Draw; Draw]
         (main_load (mkFiles None None None None (Some (-1))))) = [0; 0]
  /\ ~ strictly_increasing
        (fst (run_ids [Draw; Draw]
                (main_load (mkFiles None None None None (Some (-1)))))).
Proof.
  split; [reflexivity|].
  intros H. change (strictly_increasing [0; 0]) in H.
  destruct H as [H _]. specialize (H 0 (or_introl eq_refl)). lia.
Qed.

(** ** The two link fields of a reservation *)

Lemma makeFlightReservation_cases uname fn st :
  makeFlightReservation uname fn st
  = (if fn =? 0 then MsgExiting else MsgFullyBooked, st)
  \/ (fn <> 0
      /\ In fn (map flightNumber (flightsHead st))
      /\ exists id,
           reservationsHead (snd (makeFlightReservation uname fn st))
           = mkReservation id uname fn (-1) "Pending" :: reservationsHead st).
Proof.
  unfold makeFlightReservation.
  destruct (Z.eqb_spec fn 0) as [E|E]; [now left|].
  destruct (Z.leb_spec (calculateAvailableSeats fn st) 0) as [L|L];
    [now left|].
  right. split; [assumption|]. split.
  - apply flightExists_In.
    destruct (flightExists fn (flightsHead st)) eqn:Ex; [reflexivity|].
    exfalso. unfold calculateAvailableSeats in L.
    rewrite lookup_flight_None in L; [lia|].
    intros H. apply flightExists_In in H. congruence.
  - exists (fst (generateReservationID st)). reflexivity.
Qed.

Lemma makeHotelReservation_cases uname hid st :
  makeHotelReservation uname hid st
  = (if hid =? 0 then MsgExiting else MsgHotelUnavailable, st)
  \/ (hid <> 0
      /\ In hid (map hotelID (hotelsHead st))
      /\ exists id,
           reservationsHead (snd (makeHotelReservation uname hid st))
           = mkReservation id uname (-1) hid "Pending" :: reservationsHead st).
Proof.
  unfold makeHotelReservation.
  destruct (Z.eqb_spec hid 0) as [E|E]; [now left|].
  destruct (Z.leb_spec (calculateAvailableRooms hid st) 0) as [L|L];
    [now left|].
  right. split; [assumption|]. split.
  - apply hotelExists_In.
    destruct (hotelExists hid (hotelsHead st)) eqn:Ex; [reflexivity|].
    exfalso. unfold calculateAvailableRooms in L.
    rewrite lookup_hotel_None in L; [lia|].
    intros H. apply hotelExists_In in H. congruence.
  - exists (fst (generateReservationID st)). reflexivity.
Qed.

Lemma link_fields_write_status resID s rs :
  map link_fields (write_status resID s rs) = map link_fields rs.
Proof.
  induction rs as [|x rs IH]; simpl; [reflexivity|].
  destruct (negb (reservationID x =? resID)); simpl; [now rewrite IH|].
  reflexivity.
Qed.

Lemma link_fields_cancel_loop uname resID rs :
  map link_fields (snd (cancel_loop uname resID rs)) = map link_fields rs.
Proof.
  induction rs as [|x rs IH]; simpl; [reflexivity|].
  destruct ((reservationID x =? resID) && String.eqb (res_username x) uname).
  - destruct (String.eqb (status x) "Approved"); reflexivity.
  - destruct (cancel_loop uname resID rs) as [m rest']. simpl in *.
    now rewrite IH.
Qed.

Lemma link_fields_cancelUserReservation uname resID st :
  map link_fields (reservationsHead (snd (cancelUserReservation uname resID st)))
  = map link_fields (reservationsHead st).
Proof.
  unfold cancelUserReservation. destruct (resID =? 0); [reflexivity|].
  pose proof (link_fields_cancel_loop uname resID (reservationsHead st)) as H.
  destruct (cancel_loop uname resID (reservationsHead st)) as [m rs'].
  destruct m; try reflexivity. exact H.
Qed.

Lemma link_fields_handleReservationApproval resID decision st :
  map link_fields
      (reservationsHead (snd (handleReservationApproval resID decision st)))
  = map link_fields (reservationsHead st).
Proof.
  unfold handleReservationApproval. destruct (resID =? 0); [reflexivity|].
  destruct (find_reservation resID (reservationsHead st)); [|reflexivity].
  destruct (String.eqb decision "yes"); [apply link_fields_write_status|].
  destruct (String.eqb decision "no"); [apply link_fields_write_status|].
  reflexivity.
Qed.

Lemma link_fields_handleCancellationRequests resID decision st :
  map link_fields
      (reservationsHead (snd (handleCancellationRequests resID decision st)))
  = map link_fields (reservationsHead st).
Proof.
  unfold handleCancellationRequests. destruct (resID =? 0); [reflexivity|].
  destruct (find_reservation resID (reservationsHead st)); [|reflexivity].
  destruct (String.eqb decision "exit"); [reflexivity|].
  destruct (String.eqb decision "yes"); [apply link_fields_write_status|].
  destruct (String.eqb decision "no"); [apply link_fields_write_status|].
  reflexivity.
Qed.

(** One operation either keeps the link fields of the whole list, or puts
    one new reservation in front of an untouched list. *)
Lemma step_link_fields op st :
  map link_fields (reservationsHead (step op st))
  = map link_fields (reservationsHead st)
  \/ exists r,
       reservationsHead (step op st) = r :: reservationsHead st
       /\ ((exists uname fn,
              op = OpMakeFlight uname fn
              /\ link_fields r = (fn, -1)
              /\ fn <> 0
              /\ In fn (map flightNumber (flightsHead st)))
           \/ (exists uname hid,
                 op = OpMakeHotel uname hid
                 /\ link_fields r = (-1, hid)
                 /\ hid <> 0
                 /\ In hid (map hotelID (hotelsHead st)))).
Proof.
  destruct op as [u fn|u hid|u id|id dec|id dec]; cbn [step].
  - destruct (makeFlightReservation_cases u fn st) as [->|[Hn [Hin [id Hr]]]];
      [now left|].
    right. eexists. split; [exact Hr|]. left. exists u, fn. auto.
  - destruct (makeHotelReservation_cases u hid st) as [->|[Hn [Hin [id Hr]]]];
      [now left|].
    right. eexists. split; [exact Hr|]. right. exists u, hid. auto.
  - left. apply link_fields_cancelUserReservation.
  - left. apply link_fields_handleReservationApproval.
  - left. apply link_fields_handleCancellationRequests.
Qed.

Lemma exactly_one_set_link_fields rs :
  forallb exactly_one_set rs
  = forallb (fun p => xorb (fst p =? -1) (snd p =? -1)) (map link_fields rs).
Proof.
  induction rs as [|x rs IH]; simpl; [reflexivity|]. now rewrite IH.
Qed.

Lemma step_exactly_one_set op st :
  booked_key op <> Some (-1) ->
  forallb exactly_one_set (reservationsHead st) = true ->
  forallb exactly_one_set (reservationsHead (step op st)) = true.
Proof.
  intros Hkey Hinv.
  destruct (step_link_fields op st) as [E|[r [E Hr]]].
  - now rewrite exactly_one_set_link_fields, E, <- exactly_one_set_link_fields.
  - rewrite E. cbn [forallb]. rewrite Hinv, andb_true_r.
    unfold exactly_one_set.
    destruct Hr as [[u [fn [-> [Hl _]]]]|[u [hid [-> [Hl _]]]]];
      injection Hl as -> ->; cbn in Hkey.
    + destruct (Z.eqb_spec fn (-1)); [congruence | reflexivity].
    + destruct (Z.eqb_spec hid (-1)); [congruence | reflexivity].
Qed.

(** C5, as the code has it.  Every reservation created by
    [makeFlightReservation] has hotelID = -1 and as flightNumber the number
    typed, which is not 0 and is the number of a flight in the list; every
    reservation created by [makeHotelReservation] has flightNumber = -1 and
    as hotelID the ID typed, not 0 and the ID of a hotel in the list.  No
    operation on reservations changes these two fields of a reservation that
    exists.  Hence, as long as no flight or hotel whose own key is -1 is
    booked, "exactly one of the two fields is not -1" holds for every
    reservation in every state reached from a state where it holds. *)
Theorem link_fields_discipline (op : Op) (ops : list Op) (st : State) :
  (map link_fields (reservationsHead (step op st))
   = map link_fields (reservationsHead st)
   \/ exists r,
        reservationsHead (step op st) = r :: reservationsHead st
        /\ ((exists uname fn,
               op = OpMakeFlight uname fn
               /\ link_fields r = (fn, -1)
               /\ fn <> 0
               /\ In fn (map flightNumber (flightsHead st)))
            \/ (exists uname hid,
                  op = OpMakeHotel uname hid
                  /\ link_fields r = (-1, hid)
                  /\ hid <> 0
                  /\ In hid (map hotelID (hotelsHead st)))))
  /\ ((forall o, In o ops -> booked_key o <> Some (-1)) ->
      forallb exactly_one_set (reservationsHead st) = true ->
      forallb exactly_one_set (reservationsHead (run ops st)) = true).
Proof.
  split; [apply step_link_fields|].
  revert st. induction ops as [|o ops IH]; intros st Hkeys Hinv.
  - exact Hinv.
  - cbn [run fold_left]. apply IH.
    + intros o' Ho'. apply Hkeys. now right.
    + apply step_exactly_one_set; [|exact Hinv]. apply Hkeys. now left.
Qed.

Lemma link_fields_discipline_witness :
  forallb exactly_one_set
    (reservationsHead
       (run [OpMakeFlight "rui" 20; OpApproval 1001 "yes"; OpCancel "ana" 1002]
            (sample_state sample_reservations))) = true.
Proof.
  apply (link_fields_discipline (OpMakeFlight "rui" 20)).
  - intros o Ho. simpl in Ho.
    repeat (destruct Ho as [<-|Ho]; [simpl; discriminate|]). destruct Ho.
  - reflexivity.
Defined.

(** C5 as stated fails: [addFlight] accepts -1 as a flight number, and a
    reservation of that flight has -1 in both fields. *)
Lemma both_fields_sentinel :
  reservationsHead
    (step (OpMakeFlight "ana" (-1))
          (mkState [] [mkFlight (-1) "OPO" "LIS" "08:00" "09:00" 5] [] [] 0
                   no_files))
  = [mkReservation 1001 "ana" (-1) (-1) "Pending"]
  /\ forallb exactly_one_set
       (reservationsHead
          (step (OpMakeFlight "ana" (-1))
                (mkState [] [mkFlight (-1) "OPO" "LIS" "08:00" "09:00" 5] [] [] 0
                         no_files))) = false.
Proof. split; reflexivity. Qed.

(** ** Overbooking *)

Lemma forallb_same {A : Type} (p q : A -> bool) (l : list A) :
  (forall x, p x = q x) -> forallb p l = forallb q l.
Proof.
  intros H. induction l as [|x l IH]; simpl; [reflexivity|].
  now rewrite H, IH.
Qed.

(** A reservation that is booked is Pending and does not count as Approved. *)
Lemma no_overbooking_pending r st st' :
  status r = "Pending" ->
  flightsHead st' = flightsHead st ->
  hotelsHead st' = hotelsHead st ->
  reservationsHead st' = r :: reservationsHead st ->
  no_overbooking st' = no_overbooking st.
Proof.
  intros Hs Hf Hh Hr. unfold no_overbooking. rewrite Hf, Hh, Hr. f_equal.
  - apply forallb_same. intros f.
    unfold countReservationsByFlight. cbn [count_flight_loop].
    rewrite Hs. cbn. now rewrite andb_false_r.
  - apply forallb_same. intros h.
    unfold countReservationsByHotel. cbn [count_hotel_loop].
    rewrite Hs. cbn. now rewrite andb_false_r.
Qed.

(** Booking alone never breaks the bound: the defect is on the approval
    side. *)
Lemma booking_keeps_no_overbooking uname key st :
  no_overbooking st = true ->
  no_overbooking (step (OpMakeFlight uname key) st) = true
  /\ no_overbooking (step (OpMakeHotel uname key) st) = true.
Proof.
  intros Hinv. split; cbn [step].
  - unfold makeFlightReservation.
    destruct (key =? 0); [exact Hinv|].
    destruct (calculateAvailableSeats key st <=? 0); [exact Hinv|].
    cbn. transitivity (no_overbooking st); [|exact Hinv].
    now apply (no_overbooking_pending
                 (mkReservation (fst (generateReservationID st)) uname key (-1)
                                "Pending")).
  - unfold makeHotelReservation.
    destruct (key =? 0); [exact Hinv|].
    destruct (calculateAvailableRooms key st <=? 0); [exact Hinv|].
    cbn. transitivity (no_overbooking st); [|exact Hinv].
    now apply (no_overbooking_pending
                 (mkReservation (fst (generateReservationID st)) uname (-1) key
                                "Pending")).
Qed.

(** C1 does not hold of the code.  Flight 10 has one seat.  Two users book
    it: both bookings pass, because [makeFlightReservation] compares the
    seats with the Approved reservations only and both reservations are
    Pending.  The administrator approves both, and
    [handleReservationApproval] checks nothing: the flight ends with two
    Approved reservations for its single seat, from a state in which the
    bound held. *)
Theorem approval_overbooks :
  let st0 := sample_state [] in
  let st := run [OpMakeFlight "ana" 10; OpMakeFlight "rui" 10;
                 OpApproval 1001 "yes"; OpApproval 1002 "yes"] st0 in
  no_overbooking st0 = true
  /\ lookup_flight 10 (flightsHead st)
     = Some (mkFlight 10 "OPO" "LIS" "08:00" "09:00" 1)
  /\ countReservationsByFlight 10 "Approved" (reservationsHead st) = 2
  /\ calculateAvailableSeats 10 st = -1
  /\ no_overbooking st = false.
Proof. repeat split. Qed.

(** * Further properties of the code *)

(** ** Write-through persistence *)

Lemma read_records_app {A : Type} (records acc : list A) :
  read_records records acc = acc ++ records.
Proof.
  revert acc. induction records as [|x records IH]; intros acc; simpl.
  - now rewrite app_nil_r.
  - rewrite IH, <- app_assoc. reflexivity.
Qed.

Lemma main_load_head d :
  head (main_load d) = match users_dat d with Some us => us | None => [] end.
Proof.
  unfold main_load, loadReservationsFromFile, loadHotelsFromFile,
    loadFlightsFromFile, loadUsers, initial_state.
  destruct d as [u f h r l]; cbn.
  destruct u, f, h, r; cbn; rewrite ?read_records_app; reflexivity.
Qed.

Lemma main_load_reservationsHead d :
  reservationsHead (main_load d)
  = match reservations_dat d with Some rs => rs | None => [] end.
Proof.
  unfold main_load, loadReservationsFromFile, loadHotelsFromFile,
    loadFlightsFromFile, loadUsers, initial_state.
  destruct d as [u f h r l]; cbn.
  destruct u, f, h, r; cbn; rewrite ?read_records_app; reflexivity.
Qed.

Lemma restart_after_saveReservationsToFile st :
  reservationsHead (restart (saveReservationsToFile st))
  = reservationsHead (saveReservationsToFile st).
Proof. unfold restart. now rewrite main_load_reservationsHead. Qed.

Lemma restart_after_saveUsers st :
  head (restart (saveUsers st)) = head (saveUsers st).
Proof. unfold restart. now rewrite main_load_head. Qed.

(** Every operation on reservations either leaves the state alone or ends
    with [saveReservationsToFile]. *)
Lemma step_saves op st :
  step op st = st \/ exists st0, step op st = saveReservationsToFile st0.
Proof.
  destruct op as [u fn|u hid|u id|id dec|id dec]; cbn [step].
  - unfold makeFlightReservation.
    destruct (fn =? 0); [now left|].
    destruct (calculateAvailableSeats fn st <=? 0); [now left|].
    right. cbn. eexists. reflexivity.
  - unfold makeHotelReservation.
    destruct (hid =? 0); [now left|].
    destruct (calculateAvailableRooms hid st <=? 0); [now left|].
    right. cbn. eexists. reflexivity.
  - unfold cancelUserReservation.
    destruct (id =? 0); [now left|].
    destruct (cancel_loop u id (reservationsHead st)) as [m rs'].
    destruct m; try (now left). right. eexists. reflexivity.
  - unfold handleReservationApproval.
    destruct (id =? 0); [now left|].
    destruct (find_reservation id (reservationsHead st)); [|now left].
    destruct (String.eqb dec "yes"); [right; eexists; reflexivity|].
    destruct (String.eqb dec "no"); right; eexists; reflexivity.
  - unfold handleCancellationRequests.
    destruct (id =? 0); [now left|].
    destruct (find_reservation id (reservationsHead st)); [|now left].
    destruct (String.eqb dec "exit"); [now left|].
    destruct (String.eqb dec "yes"); [right; eexists; reflexivity|].
    destruct (String.eqb dec "no"); right; eexists; reflexivity.
Qed.

(** X1.  The reservation list is written through to reservations.dat: from
    a state whose list is what a new process would load, any sequence of
    bookings, cancellation requests, approvals and cancellation decisions
    leads to a state whose list, order included, is again what a new
    process loads. *)
Theorem reservations_survive_restart (ops : list Op) (st : State) :
  reservationsHead (restart st) = reservationsHead st ->
  reservationsHead (restart (run ops st)) = reservationsHead (run ops st).
Proof.
  revert st. induction ops as [|op ops IH]; intros st Hsync; [exact Hsync|].
  cbn [run fold_left]. apply IH.
  destruct (step_saves op st) as [->|[st0 ->]]; [exact Hsync|].
  apply restart_after_saveReservationsToFile.
Qed.

Lemma reservations_survive_restart_witness :
  reservationsHead
    (restart (run [OpMakeFlight "ana" 20; OpApproval 1001 "yes"]
                  (main_load (mkFiles None (Some sample_flights) None None None))))
  = [mkReservation 1001 "ana" 20 (-1) "Approved"].
Proof.
  rewrite (reservations_survive_restart
             [OpMakeFlight "ana" 20; OpApproval 1001 "yes"]
             (main_load (mkFiles None (Some sample_flights) None None None)));
    reflexivity.
Defined.

Lemma step_user_saves op st :
  step_user op st = st \/ exists st0, step_user op st = saveUsers st0.
Proof.
  destruct op as [u p a|id]; cbn [step_user].
  - unfold registerUser. destruct (username_exists u (head st)); [now left|].
    right. eexists. reflexivity.
  - unfold deleteUser. destruct (deleteUser_loop id (head st) 1); [|now left].
    right. eexists. reflexivity.
Qed.

(** X2.  The user list is written through to users.dat: from a state whose
    user list is what a new process would load, any sequence of
    registrations and deletions leads to a state whose user list, order
    included, is again what a new process loads. *)
Theorem users_survive_restart (ops : list UserOp) (st : State) :
  head (restart st) = head st ->
  head (restart (run_users ops st)) = head (run_users ops st).
Proof.
  revert st. induction ops as [|op ops IH]; intros st Hsync; [exact Hsync|].
  cbn [run_users fold_left]. apply IH.
  destruct (step_user_saves op st) as [->|[st0 ->]]; [exact Hsync|].
  apply restart_after_saveUsers.
Qed.

Lemma users_survive_restart_witness :
  head (restart (run_users [OpRegister "ana" "pw1" 0; OpRegister "rui" "pw2" 1;
                            OpRegister "eva" "pw3" 0; OpDeleteUser 2]
                           (main_load no_files)))
  = [mkUser "ana" "pw1" 0; mkUser "eva" "pw3" 0].
Proof.
  rewrite (users_survive_restart
             [OpRegister "ana" "pw1" 0; OpRegister "rui" "pw2" 1;
              OpRegister "eva" "pw3" 0; OpDeleteUser 2]
             (main_load no_files)); reflexivity.
Defined.

(** ** Deleting users and logging in *)

Lemma deleteUser_loop_hit id pre u post :
  forall currentId,
  1 <= currentId ->
  id = currentId + Z.of_nat (List.length pre) ->
  id <= CInt.INT_MAX ->
  deleteUser_loop id (pre ++ u :: post) currentId = Some (pre ++ post).
Proof.
  induction pre as [|x pre IH]; intros c Hc Hid Hmax; cbn [app deleteUser_loop].
  - cbn in Hid. replace id with c by lia. now rewrite Z.eqb_refl.
  - cbn [List.length] in Hid.
    destruct (Z.eqb_spec c id) as [E|E]; [lia|].
    unfold CInt.add. rewrite wrap_small
      by (unfold CInt.in_range, CInt.INT_MIN; lia).
    rewrite IH; [reflexivity | lia | lia | lia].
Qed.

Lemma deleteUser_loop_miss id users :
  forall currentId,
  1 <= currentId ->
  currentId + Z.of_nat (List.length users) <= CInt.INT_MAX ->
  id < currentId \/ currentId + Z.of_nat (List.length users) <= id ->
  deleteUser_loop id users currentId = None.
Proof.
  induction users as [|x users IH]; intros c Hc Hmax Hid;
    cbn [deleteUser_loop]; [reflexivity|].
  cbn [List.length] in Hmax, Hid.
  destruct (Z.eqb_spec c id) as [E|E]; [lia|].
  unfold CInt.add. rewrite wrap_small
    by (unfold CInt.in_range, CInt.INT_MIN; lia).
  rewrite IH; [reflexivity | lia | lia | lia].
Qed.

(** X3.  [deleteUser] addresses users by position, counted from 1 (the
    numbers [listUsersWithID] prints).  On a list shorter than INT_MAX:
    typing the position of a user removes exactly that user, so the user
    list afterwards is the old one without that node, the others in order,
    and users.dat holds the same list; everything else, the user's
    reservations included, is left alone.  Typing a number below 1 or above
    the length changes nothing. *)
Theorem deleteUser_by_position (st : State) :
  Z.of_nat (List.length (head st)) < CInt.INT_MAX ->
  (forall pre u post,
     head st = pre ++ u :: post ->
     deleteUser (Z.of_nat (List.length pre) + 1) st
     = (MsgUserDeleted, saveUsers (with_head (pre ++ post) st))
     /\ head (snd (deleteUser (Z.of_nat (List.length pre) + 1) st))
        = pre ++ post
     /\ users_dat (disk (snd (deleteUser (Z.of_nat (List.length pre) + 1) st)))
        = Some (pre ++ post)
     /\ reservationsHead
          (snd (deleteUser (Z.of_nat (List.length pre) + 1) st))
        = reservationsHead st)
  /\ (forall id,
        id < 1 \/ Z.of_nat (List.length (head st)) < id ->
        deleteUser id st = (MsgUserNotFound id, st)).
Proof.
  intros Hlen. split.
  - intros pre u post Hsplit. unfold deleteUser. rewrite Hsplit.
    rewrite (deleteUser_loop_hit _ pre u post 1); [repeat split | lia | lia |].
    rewrite Hsplit, length_app in Hlen. cbn [List.length] in Hlen. lia.
  - intros id Hid. unfold deleteUser.
    rewrite deleteUser_loop_miss; [reflexivity | lia | lia | lia].
Qed.

Lemma deleteUser_by_position_witness :
  head (snd (deleteUser 2 (sample_state sample_reservations)))
  = [mkUser "ana" "pw1" 0]
  /\ users_dat (disk (snd (deleteUser 2 (sample_state sample_reservations))))
     = Some [mkUser "ana" "pw1" 0]
  /\ deleteUser 3 (sample_state sample_reservations)
     = (MsgUserNotFound 3, sample_state sample_reservations).
Proof.
  destruct (deleteUser_by_position (sample_state sample_reservations))
    as [Hhit Hmiss].
  - vm_compute. reflexivity.
  - destruct (Hhit [mkUser "ana" "pw1" 0] (mkUser "rui" "pw2" 1) [] eq_refl)
      as [_ [Hhead [Hfile _]]].
    split; [exact Hhead|]. split; [exact Hfile|].
    apply Hmiss. right. vm_compute. reflexivity.
Defined.

Lemma find_credentials_absent uname pwd users :
  ~ In uname (map username users) -> find_credentials uname pwd users = None.
Proof.
  induction users as [|x users IH]; simpl; intros H; [reflexivity|].
  destruct (String.eqb_spec (username x) uname) as [E|E]; [tauto|].
  simpl. apply IH. tauto.
Qed.

Lemma find_credentials_app uname pwd users more :
  ~ In uname (map username users) ->
  find_credentials uname pwd (users ++ more) = find_credentials uname pwd more.
Proof.
  induction users as [|x users IH]; simpl; intros H; [reflexivity|].
  destruct (String.eqb_spec (username x) uname) as [E|E]; [tauto|].
  simpl. apply IH. tauto.
Qed.

(** X4.  A name that is not in the user list cannot log in.  After
    [registerUser] has added such a name, [loginUser] with that name
    succeeds exactly with the registered password and the registered role:
    it then returns the role and records the name in [currentUser]; with
    another password it answers "Invalid username or password.", with
    another role "Access denied. Incorrect user role.", and in both cases
    returns -1 and leaves [currentUser] as it was. *)
Theorem login_after_register (uname pwd typed : string) (adm expected : Z)
                             (s : Session) :
  ~ In uname (map username (head (globals s))) ->
  let s' := mkSession (snd (registerUser uname pwd adm (globals s)))
                      (currentUser s) in
  loginUser expected uname typed s = (-1, Some MsgInvalidLogin, s)
  /\ loginUser expected uname typed s'
     = if String.eqb pwd typed
       then if adm =? expected
            then (adm, None, mkSession (globals s') uname)
            else (-1, Some MsgRoleDenied, s')
       else (-1, Some MsgInvalidLogin, s').
Proof.
  intros Hfresh s'. split.
  - unfold loginUser. now rewrite find_credentials_absent.
  - unfold loginUser, s', registerUser.
    destruct (username_exists uname (head (globals s))) eqn:E.
    { apply username_exists_In in E. contradiction. }
    cbn [snd globals saveUsers with_head with_disk head].
    rewrite find_credentials_app by assumption.
    cbn [find_credentials username password isAdmin].
    rewrite String.eqb_refl. cbn [andb].
    destruct (String.eqb pwd typed); reflexivity.
Qed.

Lemma login_after_register_witness :
  loginUser 0 "eva" "pw3"
    (mkSession (snd (registerUser "eva" "pw3" 0 (sample_state []))) "")
  = (0, None,
     mkSession (snd (registerUser "eva" "pw3" 0 (sample_state []))) "eva").
Proof.
  apply (login_after_register "eva" "pw3" "pw3" 0 0
           (mkSession (sample_state []) "")).
  simpl. intros H. repeat (destruct H as [H|H]; [discriminate H|]). exact H.
Defined.

(** ** Managing flights and hotels *)

(** X5.  Flight numbers and hotel IDs stay unique keys under [addFlight] and
    [addHotel]: a key that is already in the list is refused and the state
    is unchanged, a new key puts the new record at the front of the list
    (the list afterwards is the new record followed by the old list), and
    in both cases the keys of the resulting list are distinct when they
    were distinct before. *)
Theorem add_keeps_keys_unique (key : Z) (org dst dep arr nm loc : string)
                              (places : Z) (st : State) :
  (NoDup (map flightNumber (flightsHead st)) ->
     (In key (map flightNumber (flightsHead st)) ->
        addFlight key org dst dep arr places st = (MsgFlightExists key, st))
     /\ (~ In key (map flightNumber (flightsHead st)) ->
           addFlight key org dst dep arr places st
           = (MsgFlightAdded,
              with_flightsHead
                (mkFlight key org dst dep arr places :: flightsHead st) st)
           /\ flightsHead (snd (addFlight key org dst dep arr places st))
              = mkFlight key org dst dep arr places :: flightsHead st)
     /\ NoDup (map flightNumber
                   (flightsHead (snd (addFlight key org dst dep arr places st)))))
  /\ (NoDup (map hotelID (hotelsHead st)) ->
        (In key (map hotelID (hotelsHead st)) ->
           addHotel key nm loc places st = (MsgHotelExists key, st))
        /\ (~ In key (map hotelID (hotelsHead st)) ->
              addHotel key nm loc places st
              = (MsgHotelAdded,
                 with_hotelsHead
                   (mkHotel key nm loc places :: hotelsHead st) st)
              /\ hotelsHead (snd (addHotel key nm loc places st))
                 = mkHotel key nm loc places :: hotelsHead st)
        /\ NoDup (map hotelID
                      (hotelsHead (snd (addHotel key nm loc places st))))).
Proof.
  split; intros Hnd.
  - unfold addFlight.
    destruct (flightExists key (flightsHead st)) eqn:E.
    + apply flightExists_In in E.
      split; [intros _; reflexivity|].
      split; [intros H; contradiction | exact Hnd].
    + assert (Hfresh : ~ In key (map flightNumber (flightsHead st))).
      { intros H. apply flightExists_In in H. congruence. }
      split; [intros H; contradiction|].
      split; [intros _; split; reflexivity|]. cbn. now constructor.
  - unfold addHotel.
    destruct (hotelExists key (hotelsHead st)) eqn:E.
    + apply hotelExists_In in E.
      split; [intros _; reflexivity|].
      split; [intros H; contradiction | exact Hnd].
    + assert (Hfresh : ~ In key (map hotelID (hotelsHead st))).
      { intros H. apply hotelExists_In in H. congruence. }
      split; [intros H; contradiction|].
      split; [intros _; split; reflexivity|]. cbn. now constructor.
Qed.

Lemma sample_hotel_ids_distinct :
  NoDup (map hotelID (hotelsHead (sample_state []))).
Proof. distinct_literals. Defined.

Lemma sample_flight_numbers_distinct_empty :
  NoDup (map flightNumber (flightsHead (sample_state []))).
Proof. distinct_literals. Defined.

Lemma add_keeps_keys_unique_witness :
  addFlight 20 "LIS" "PDL" "07:00" "09:30" 9 (sample_state [])
  = (MsgFlightExists 20, sample_state [])
  /\ flightsHead (snd (addFlight 30 "LIS" "PDL" "07:00" "09:30" 9
                         (sample_state [])))
     = mkFlight 30 "LIS" "PDL" "07:00" "09:30" 9 :: sample_flights
  /\ addHotel 7 "Sol" "Tavira" 4 (sample_state [])
     = (MsgHotelExists 7, sample_state [])
  /\ hotelsHead (snd (addHotel 8 "Sol" "Tavira" 4 (sample_state [])))
     = mkHotel 8 "Sol" "Tavira" 4 :: sample_hotels.
Proof.
  destruct (add_keeps_keys_unique 20 "LIS" "PDL" "07:00" "09:30" "" "" 9
              (sample_state [])) as [Hf _].
  destruct (add_keeps_keys_unique 30 "LIS" "PDL" "07:00" "09:30" "" "" 9
              (sample_state [])) as [Hf' _].
  destruct (add_keeps_keys_unique 7 "" "" "" "" "Sol" "Tavira" 4
              (sample_state [])) as [_ Hh].
  destruct (add_keeps_keys_unique 8 "" "" "" "" "Sol" "Tavira" 4
              (sample_state [])) as [_ Hh'].
  destruct (Hf sample_flight_numbers_distinct_empty) as [Hf1 _].
  destruct (Hf' sample_flight_numbers_distinct_empty) as [_ [Hf2 _]].
  destruct (Hh sample_hotel_ids_distinct) as [Hh1 _].
  destruct (Hh' sample_hotel_ids_distinct) as [_ [Hh2 _]].
  split; [apply Hf1; simpl; auto|].
  split.
  { apply Hf2. simpl. intros H.
    repeat (destruct H as [H|H]; [discriminate H|]). exact H. }
  split; [apply Hh1; simpl; auto|].
  apply Hh2. simpl. intros H.
  repeat (destruct H as [H|H]; [discriminate H|]). exact H.
Defined.

Lemma deleteFlight_loop_found fn flights f :
  lookup_flight fn flights = Some f ->
  exists pre post,
    flights = pre ++ f :: post
    /\ ~ In fn (map flightNumber pre)
    /\ deleteFlight_loop fn flights = Some (pre ++ post).
Proof.
  induction flights as [|g fs IH]; simpl; [discriminate|].
  destruct (Z.eqb_spec (flightNumber g) fn) as [E|E]; simpl.
  - intros [= ->]. exists [], fs. simpl. auto.
  - intros H. destruct (IH H) as [pre [post [-> [Hpre ->]]]].
    exists (g :: pre), post. simpl. repeat split. tauto.
Qed.

Lemma deleteFlight_loop_absent fn flights :
  ~ In fn (map flightNumber flights) -> deleteFlight_loop fn flights = None.
Proof.
  induction flights as [|g fs IH]; simpl; intros H; [reflexivity|].
  destruct (Z.eqb_spec (flightNumber g) fn) as [E|E]; [tauto|].
  rewrite IH; tauto.
Qed.

Lemma deleteHotel_loop_found hid hotels h :
  lookup_hotel hid hotels = Some h ->
  exists pre post,
    hotels = pre ++ h :: post
    /\ ~ In hid (map hotelID pre)
    /\ deleteHotel_loop hid hotels = Some (pre ++ post).
Proof.
  induction hotels as [|g hs IH]; simpl; [discriminate|].
  destruct (Z.eqb_spec (hotelID g) hid) as [E|E]; simpl.
  - intros [= ->]. exists [], hs. simpl. auto.
  - intros H. destruct (IH H) as [pre [post [-> [Hpre ->]]]].
    exists (g :: pre), post. simpl. repeat split. tauto.
Qed.

Lemma deleteHotel_loop_absent hid hotels :
  ~ In hid (map hotelID hotels) -> deleteHotel_loop hid hotels = None.
Proof.
  induction hotels as [|g hs IH]; simpl; intros H; [reflexivity|].
  destruct (Z.eqb_spec (hotelID g) hid) as [E|E]; [tauto|].
  rewrite IH; tauto.
Qed.

(** X6.  [deleteFlight] removes the flight with the number typed (numbers
    distinct) and nothing else: the other flights keep their order and the
    reservation list is not touched, so reservations of the deleted flight
    stay where they are.  Afterwards the number is no longer in the list,
    [calculateAvailableSeats] is 0 for it and [makeFlightReservation]
    refuses it.  A number that is not in the list changes nothing. *)
Theorem deleteFlight_leaves_reservations (uname : string) (f : Flight)
                                         (st : State) :
  NoDup (map flightNumber (flightsHead st)) ->
  In f (flightsHead st) ->
  let st' := snd (deleteFlight (flightNumber f) st) in
  (exists pre post,
     flightsHead st = pre ++ f :: post /\ flightsHead st' = pre ++ post)
  /\ reservationsHead st' = reservationsHead st
  /\ ~ In (flightNumber f) (map flightNumber (flightsHead st'))
  /\ calculateAvailableSeats (flightNumber f) st' = 0
  /\ makeFlightReservation uname (flightNumber f) st'
     = (if flightNumber f =? 0 then MsgExiting else MsgFullyBooked, st')
  /\ (forall fn, ~ In fn (map flightNumber (flightsHead st)) ->
        deleteFlight fn st = (MsgFlightNotFound fn, st)).
Proof.
  intros Hnd Hin st'.
  pose proof (lookup_flight_unique _ f Hnd Hin) as Hl.
  destruct (deleteFlight_loop_found _ _ _ Hl) as [pre [post [Hsplit [Hpre Hd]]]].
  assert (Est : st' = with_flightsHead (pre ++ post) st).
  { unfold st', deleteFlight. now rewrite Hd. }
  assert (Hgone : ~ In (flightNumber f) (map flightNumber (flightsHead st'))).
  { rewrite Est. cbn. rewrite Hsplit, map_app in Hnd. cbn in Hnd.
    apply NoDup_remove_2 in Hnd. now rewrite map_app. }
  assert (H0 : calculateAvailableSeats (flightNumber f) st' = 0).
  { unfold calculateAvailableSeats. now rewrite lookup_flight_None. }
  split; [exists pre, post; split; [exact Hsplit | now rewrite Est]|].
  split; [now rewrite Est|]. split; [exact Hgone|]. split; [exact H0|].
  split.
  - unfold makeFlightReservation. rewrite H0.
    destruct (flightNumber f =? 0); reflexivity.
  - intros fn Hfn. unfold deleteFlight.
    now rewrite deleteFlight_loop_absent.
Qed.

Lemma deleteFlight_leaves_reservations_witness :
  reservationsHead
    (snd (deleteFlight 20 (sample_state sample_reservations)))
  = sample_reservations
  /\ calculateAvailableSeats 20
       (snd (deleteFlight 20 (sample_state sample_reservations))) = 0.
Proof.
  destruct (deleteFlight_leaves_reservations "ana"
              (mkFlight 20 "LIS" "FNC" "10:00" "12:00" 3)
              (sample_state sample_reservations)
              sample_flight_numbers_distinct) as [_ [Hr [_ [H0 _]]]].
  - simpl. auto.
  - split; [exact Hr | exact H0].
Defined.

(** X7.  [deleteHotel] removes the hotel with the ID typed (IDs distinct)
    and nothing else: the other hotels keep their order and the reservation
    list is not touched.  Afterwards the ID is no longer in the list,
    [calculateAvailableRooms] is 0 for it and [makeHotelReservation] refuses
    it.  An ID that is not in the list changes nothing. *)
Theorem deleteHotel_leaves_reservations (uname : string) (h : Hotel)
                                        (st : State) :
  NoDup (map hotelID (hotelsHead st)) ->
  In h (hotelsHead st) ->
  let st' := snd (deleteHotel (hotelID h) st) in
  (exists pre post,
     hotelsHead st = pre ++ h :: post /\ hotelsHead st' = pre ++ post)
  /\ reservationsHead st' = reservationsHead st
  /\ ~ In (hotelID h) (map hotelID (hotelsHead st'))
  /\ calculateAvailableRooms (hotelID h) st' = 0
  /\ makeHotelReservation uname (hotelID h) st'
     = (if hotelID h =? 0 then MsgExiting else MsgHotelUnavailable, st')
  /\ (forall hid, ~ In hid (map hotelID (hotelsHead st)) ->
        deleteHotel hid st = (MsgHotelNotFound hid, st)).
Proof.
  intros Hnd Hin st'.
  assert (Hl : lookup_hotel (hotelID h) (hotelsHead st) = Some h).
  { clear st'. induction (hotelsHead st) as [|g hs IH]; simpl; [destruct Hin|].
    inversion Hnd as [|? ? Hnot Hnd']; subst. destruct Hin as [->|Hin].
    - now rewrite Z.eqb_refl.
    - destruct (Z.eqb_spec (hotelID g) (hotelID h)) as [E|E]; simpl.
      + exfalso. apply Hnot. rewrite E. now apply in_map.
      + now apply IH. }
  destruct (deleteHotel_loop_found _ _ _ Hl) as [pre [post [Hsplit [Hpre Hd]]]].
  assert (Est : st' = with_hotelsHead (pre ++ post) st).
  { unfold st', deleteHotel. now rewrite Hd. }
  assert (Hgone : ~ In (hotelID h) (map hotelID (hotelsHead st'))).
  { rewrite Est. cbn. rewrite Hsplit, map_app in Hnd. cbn in Hnd.
    apply NoDup_remove_2 in Hnd. now rewrite map_app. }
  assert (H0 : calculateAvailableRooms (hotelID h) st' = 0).
  { unfold calculateAvailableRooms. now rewrite lookup_hotel_None. }
  split; [exists pre, post; split; [exact Hsplit | now rewrite Est]|].
  split; [now rewrite Est|]. split; [exact Hgone|]. split; [exact H0|].
  split.
  - unfold makeHotelReservation. rewrite H0.
    destruct (hotelID h =? 0); reflexivity.
  - intros hid Hhid. unfold deleteHotel.
    now rewrite deleteHotel_loop_absent.
Qed.

Lemma deleteHotel_leaves_reservations_witness :
  reservationsHead (snd (deleteHotel 7 (sample_state sample_reservations)))
  = sample_reservations
  /\ calculateAvailableRooms 7
       (snd (deleteHotel 7 (sample_state sample_reservations))) = 0.
Proof.
  destruct (deleteHotel_leaves_reservations "rui" (mkHotel 7 "Mar" "Faro" 2)
              (sample_state sample_reservations)) as [_ [Hr [_ [H0 _]]]].
  - distinct_literals.
  - simpl. auto.
  - split; [exact Hr | exact H0].
Defined.

Lemma editFlight_loop_found fn org dst dep arr seats flights :
  In fn (map flightNumber flights) ->
  exists flights',
    editFlight_loop fn org dst dep arr seats flights = Some flights'
    /\ map flightNumber flights' = map flightNumber flights
    /\ lookup_flight fn flights' = Some (mkFlight fn org dst dep arr seats)
    /\ forall other, other <> fn ->
         lookup_flight other flights' = lookup_flight other flights.
Proof.
  induction flights as [|g fs IH]; simpl; [intros []|]. intros Hin.
  destruct (Z.eqb_spec (flightNumber g) fn) as [E|E].
  - eexists. split; [reflexivity|]. cbn. rewrite E, Z.eqb_refl. cbn.
    repeat split. intros other Ho.
    destruct (Z.eqb_spec fn other) as [E'|E']; [congruence | reflexivity].
  - destruct IH as [fs' [-> [Hm [Hl Ho]]]]; [tauto|].
    eexists. split; [reflexivity|]. cbn. rewrite Hm.
    destruct (Z.eqb_spec (flightNumber g) fn) as [E'|_]; [contradiction|].
    cbn. repeat split; [exact Hl|]. intros other Hne.
    now rewrite (Ho other Hne).
Qed.

Lemma editFlight_loop_absent fn org dst dep arr seats flights :
  ~ In fn (map flightNumber flights) ->
  editFlight_loop fn org dst dep arr seats flights = None.
Proof.
  induction flights as [|g fs IH]; simpl; intros H; [reflexivity|].
  destruct (Z.eqb_spec (flightNumber g) fn) as [E|E]; [tauto|].
  rewrite IH; tauto.
Qed.

(** X8.  [editFlight] overwrites the details of the flight with the number
    typed and keeps every flight number, so the keys and the order of the
    list do not change, and it does not touch the reservations.  The new
    seat count is not checked against the Approved reservations:
    [calculateAvailableSeats] for the flight becomes the new count minus the
    Approved count, whatever its sign, and stays the same for every other
    flight.  A number that is not in the list changes nothing. *)
Theorem editFlight_not_revalidated (fn : Z) (org dst dep arr : string)
                                   (seats : Z) (st : State) :
  let st' := snd (editFlight fn org dst dep arr seats st) in
  (In fn (map flightNumber (flightsHead st)) ->
     map flightNumber (flightsHead st') = map flightNumber (flightsHead st)
     /\ lookup_flight fn (flightsHead st')
        = Some (mkFlight fn org dst dep arr seats)
     /\ reservationsHead st' = reservationsHead st
     /\ calculateAvailableSeats fn st'
        = CInt.sub seats
            (countReservationsByFlight fn "Approved" (reservationsHead st))
     /\ forall other, other <> fn ->
          calculateAvailableSeats other st' = calculateAvailableSeats other st)
  /\ (~ In fn (map flightNumber (flightsHead st)) ->
        editFlight fn org dst dep arr seats st = (MsgFlightNotFound fn, st)).
Proof.
  intros st'. split; intros Hin.
  - destruct (editFlight_loop_found fn org dst dep arr seats _ Hin)
      as [fs' [He [Hm [Hl Ho]]]].
    assert (Est : st' = with_flightsHead fs' st).
    { unfold st', editFlight. now rewrite He. }
    rewrite Est. cbn [with_flightsHead flightsHead reservationsHead].
    unfold calculateAvailableSeats.
    cbn [with_flightsHead flightsHead reservationsHead].
    rewrite Hl. repeat split; try assumption.
    intros other Hne. now rewrite (Ho other Hne).
  - unfold editFlight. now rewrite editFlight_loop_absent.
Qed.

Lemma editFlight_not_revalidated_witness :
  calculateAvailableSeats 20
    (snd (editFlight 20 "LIS" "FNC" "10:00" "12:00" 0
            (sample_state sample_reservations)))
  = CInt.sub 0 (countReservationsByFlight 20 "Approved" sample_reservations).
Proof.
  destruct (editFlight_not_revalidated 20 "LIS" "FNC" "10:00" "12:00" 0
              (sample_state sample_reservations)) as [Hin _].
  destruct Hin as [_ [_ [_ [Hc _]]]].
  - simpl. auto.
  - exact Hc.
Defined.

Lemma editHotel_loop_found hid nm loc rooms hotels :
  In hid (map hotelID hotels) ->
  exists hotels',
    editHotel_loop hid nm loc rooms hotels = Some hotels'
    /\ map hotelID hotels' = map hotelID hotels
    /\ lookup_hotel hid hotels' = Some (mkHotel hid nm loc rooms)
    /\ forall other, other <> hid ->
         lookup_hotel other hotels' = lookup_hotel other hotels.
Proof.
  induction hotels as [|g hs IH]; simpl; [intros []|]. intros Hin.
  destruct (Z.eqb_spec (hotelID g) hid) as [E|E].
  - eexists. split; [reflexivity|]. cbn. rewrite E, Z.eqb_refl. cbn.
    repeat split. intros other Ho.
    destruct (Z.eqb_spec hid other) as [E'|E']; [congruence | reflexivity].
  - destruct IH as [hs' [-> [Hm [Hl Ho]]]]; [tauto|].
    eexists. split; [reflexivity|]. cbn. rewrite Hm.
    destruct (Z.eqb_spec (hotelID g) hid) as [E'|_]; [contradiction|].
    cbn. repeat split; [exact Hl|]. intros other Hne.
    now rewrite (Ho other Hne).
Qed.

Lemma editHotel_loop_absent hid nm loc rooms hotels :
  ~ In hid (map hotelID hotels) ->
  editHotel_loop hid nm loc rooms hotels = None.
Proof.
  induction hotels as [|g hs IH]; simpl; intros H; [reflexivity|].
  destruct (Z.eqb_spec (hotelID g) hid) as [E|E]; [tauto|].
  rewrite IH; tauto.
Qed.

(** X9.  [editHotel] overwrites the details of the hotel with the ID typed
    and keeps every hotel ID, and it does not touch the reservations.  The
    new room count is not checked against the Approved reservations:
    [calculateAvailableRooms] for the hotel becomes the new count minus the
    Approved count, whatever its sign, and stays the same for every other
    hotel.  An ID that is not in the list changes nothing. *)
Theorem editHotel_not_revalidated (hid : Z) (nm loc : string) (rooms : Z)
                                  (st : State) :
  let st' := snd (editHotel hid nm loc rooms st) in
  (In hid (map hotelID (hotelsHead st)) ->
     map hotelID (hotelsHead st') = map hotelID (hotelsHead st)
     /\ lookup_hotel hid (hotelsHead st') = Some (mkHotel hid nm loc rooms)
     /\ reservationsHead st' = reservationsHead st
     /\ calculateAvailableRooms hid st'
        = CInt.sub rooms
            (countReservationsByHotel hid "Approved" (reservationsHead st))
     /\ forall other, other <> hid ->
          calculateAvailableRooms other st' = calculateAvailableRooms other st)
  /\ (~ In hid (map hotelID (hotelsHead st)) ->
        editHotel hid nm loc rooms st = (MsgHotelNotFound hid, st)).
Proof.
  intros st'. split; intros Hin.
  - destruct (editHotel_loop_found hid nm loc rooms _ Hin)
      as [hs' [He [Hm [Hl Ho]]]].
    assert (Est : st' = with_hotelsHead hs' st).
    { unfold st', editHotel. now rewrite He. }
    rewrite Est. cbn [with_hotelsHead hotelsHead reservationsHead].
    unfold calculateAvailableRooms.
    cbn [with_hotelsHead hotelsHead reservationsHead].
    rewrite Hl. repeat split; try assumption.
    intros other Hne. now rewrite (Ho other Hne).
  - unfold editHotel. now rewrite editHotel_loop_absent.
Qed.

Lemma editHotel_not_revalidated_witness :
  calculateAvailableRooms 7
    (snd (editHotel 7 "Mar" "Faro" 0 (sample_state sample_reservations)))
  = CInt.sub 0 (countReservationsByHotel 7 "Approved" sample_reservations).
Proof.
  destruct (editHotel_not_revalidated 7 "Mar" "Faro" 0
              (sample_state sample_reservations)) as [Hin _].
  destruct Hin as [_ [_ [_ [Hc _]]]].
  - simpl. auto.
  - exact Hc.
Defined.

(** ** Invariants of the reservation list *)

Lemma status_known_write_status resID s rs :
  status_known (mkReservation 0 "" 0 0 s) = true ->
  forallb status_known rs = true ->
  forallb status_known (write_status resID s rs) = true.
Proof.
  intros Hs. induction rs as [|x rs IH]; simpl; [reflexivity|].
  intros H. apply andb_true_iff in H as [Hx Hrs].
  destruct (negb (reservationID x =? resID)); simpl.
  - now rewrite Hx, IH.
  - rewrite Hrs, andb_true_r. exact Hs.
Qed.

Lemma status_known_cancel_loop uname resID rs :
  forallb status_known rs = true ->
  forallb status_known (snd (cancel_loop uname resID rs)) = true.
Proof.
  induction rs as [|x rs IH]; simpl; [reflexivity|].
  intros H. apply andb_true_iff in H as [Hx Hrs].
  destruct ((reservationID x =? resID) && String.eqb (res_username x) uname).
  - destruct (String.eqb (status x) "Approved"); simpl.
    + exact Hrs.
    + now rewrite Hx, Hrs.
  - specialize (IH Hrs).
    destruct (cancel_loop uname resID rs) as [m rest']. simpl in *.
    now rewrite Hx, IH.
Qed.

Lemma step_status_known op st :
  forallb status_known (reservationsHead st) = true ->
  forallb status_known (reservationsHead (step op st)) = true.
Proof.
  intros H. destruct op as [u fn|u hid|u id|id dec|id dec]; cbn [step].
  - unfold makeFlightReservation.
    destruct (fn =? 0); [exact H|].
    destruct (calculateAvailableSeats fn st <=? 0); [exact H|]. cbn. exact H.
  - unfold makeHotelReservation.
    destruct (hid =? 0); [exact H|].
    destruct (calculateAvailableRooms hid st <=? 0); [exact H|]. cbn. exact H.
  - unfold cancelUserReservation.
    destruct (id =? 0); [exact H|].
    pose proof (status_known_cancel_loop u id _ H) as Hc.
    destruct (cancel_loop u id (reservationsHead st)) as [m rs'].
    destruct m; try exact H. exact Hc.
  - unfold handleReservationApproval.
    destruct (id =? 0); [exact H|].
    destruct (find_reservation id (reservationsHead st)); [|exact H].
    destruct (String.eqb dec "yes");
      [now apply status_known_write_status|].
    destruct (String.eqb dec "no");
      [now apply status_known_write_status | exact H].
  - unfold handleCancellationRequests.
    destruct (id =? 0); [exact H|].
    destruct (find_reservation id (reservationsHead st)); [|exact H].
    destruct (String.eqb dec "exit"); [exact H|].
    destruct (String.eqb dec "yes");
      [now apply status_known_write_status|].
    destruct (String.eqb dec "no");
      [now apply status_known_write_status | exact H].
Qed.

Lemma known_statuses_filter (s : string) rs :
  status_known (mkReservation 0 "" 0 0 s) = false ->
  forallb status_known rs = true ->
  filter (fun r => String.eqb (status r) s) rs = [].
Proof.
  intros Hs. induction rs as [|x rs IH]; simpl; [reflexivity|].
  intros H. apply andb_true_iff in H as [Hx Hrs].
  destruct (String.eqb_spec (status x) s) as [E|E]; [|now apply IH].
  exfalso. unfold status_known in Hx, Hs. cbn [status] in Hs.
  rewrite E in Hx. congruence.
Qed.

(** X10.  The operations write only the five statuses "Pending",
    "Approved", "Rejected", "Cancelled" and "Cancel Requested": when every
    reservation has one of them, so has every reservation after any sequence
    of bookings, cancellation requests, approvals and cancellation
    decisions.  In such states [viewAcceptedReservations] and
    [viewCanceledReservations], which filter on "Accepted" and "Canceled",
    list nothing. *)
Theorem statuses_stay_known (ops : list Op) (st : State) :
  forallb status_known (reservationsHead st) = true ->
  forallb status_known (reservationsHead (run ops st)) = true
  /\ viewAcceptedReservations (run ops st) = []
  /\ viewCanceledReservations (run ops st) = [].
Proof.
  intros H.
  assert (Hrun : forallb status_known (reservationsHead (run ops st)) = true).
  { revert st H. induction ops as [|op ops IH]; intros st H; [exact H|].
    cbn [run fold_left]. apply IH. now apply step_status_known. }
  split; [exact Hrun|].
  unfold viewAcceptedReservations, viewCanceledReservations,
    listReservationsByStatus.
  rewrite !known_statuses_filter by (assumption || reflexivity).
  split; reflexivity.
Qed.

Lemma statuses_stay_known_witness :
  viewAcceptedReservations
    (run [OpApproval 1001 "yes"; OpCancel "ana" 1002; OpCancellation 1002 "yes"]
         (sample_state sample_reservations)) = [].
Proof.
  apply (statuses_stay_known
           [OpApproval 1001 "yes"; OpCancel "ana" 1002; OpCancellation 1002 "yes"]
           (sample_state sample_reservations)).
  reflexivity.
Defined.

Lemma reservationID_write_status resID s rs :
  map reservationID (write_status resID s rs) = map reservationID rs.
Proof.
  induction rs as [|x rs IH]; simpl; [reflexivity|].
  destruct (negb (reservationID x =? resID)); simpl; [now rewrite IH|].
  reflexivity.
Qed.

Lemma reservationID_cancel_loop uname resID rs :
  map reservationID (snd (cancel_loop uname resID rs)) = map reservationID rs.
Proof.
  induction rs as [|x rs IH]; simpl; [reflexivity|].
  destruct ((reservationID x =? resID) && String.eqb (res_username x) uname).
  - destruct (String.eqb (status x) "Approved"); reflexivity.
  - destruct (cancel_loop uname resID rs) as [m rest']. simpl in *.
    now rewrite IH.
Qed.

Lemma counter_next st :
  0 <= counter st -> counter st + 1 <= CInt.INT_MAX ->
  fst (generateReservationID st) = counter st + 1
  /\ counter (snd (generateReservationID st)) = counter st + 1.
Proof.
  intros H0 H1. unfold generateReservationID. fold (counter st). cbn [fst snd].
  unfold CInt.add. rewrite wrap_small
    by (unfold CInt.in_range, CInt.INT_MIN; lia).
  split; [reflexivity|]. unfold counter at 1. cbn [with_lastID lastID].
  destruct (Z.eqb_spec (counter st + 1) 0); [lia | reflexivity].
Qed.

Lemma counter_saveReservationsToFile rs st :
  counter (saveReservationsToFile (with_reservationsHead rs st)) = counter st.
Proof. destruct st. reflexivity. Qed.

(** One operation either keeps the identifiers and the counter, or draws
    the next identifier for a reservation put in front of the list. *)
Lemma step_ids op st :
  0 <= counter st -> counter st + 1 <= CInt.INT_MAX ->
  (map reservationID (reservationsHead (step op st))
   = map reservationID (reservationsHead st)
   /\ counter (step op st) = counter st)
  \/ (map reservationID (reservationsHead (step op st))
      = (counter st + 1) :: map reservationID (reservationsHead st)
      /\ counter (step op st) = counter st + 1).
Proof.
  intros H0 H1. destruct (counter_next st H0 H1) as [Hid Hc].
  destruct op as [u fn|u hid|u id|id dec|id dec]; cbn [step].
  - unfold makeFlightReservation.
    destruct (fn =? 0); [now left|].
    destruct (calculateAvailableSeats fn st <=? 0); [now left|].
    right. unfold generateReservationID in *. cbn [fst snd] in *.
    rewrite counter_saveReservationsToFile. split; [|exact Hc].
    cbn. now rewrite Hid.
  - unfold makeHotelReservation.
    destruct (hid =? 0); [now left|].
    destruct (calculateAvailableRooms hid st <=? 0); [now left|].
    right. unfold generateReservationID in *. cbn [fst snd] in *.
    rewrite counter_saveReservationsToFile. split; [|exact Hc].
    cbn. now rewrite Hid.
  - left. unfold cancelUserReservation.
    destruct (id =? 0); [now split|].
    pose proof (reservationID_cancel_loop u id (reservationsHead st)) as Hm.
    destruct (cancel_loop u id (reservationsHead st)) as [m rs'].
    destruct m; now split.
  - left. unfold handleReservationApproval.
    destruct (id =? 0); [now split|].
    destruct (find_reservation id (reservationsHead st)); [|now split].
    destruct (String.eqb dec "yes");
      [split; [apply reservationID_write_status | reflexivity]|].
    destruct (String.eqb dec "no");
      [split; [apply reservationID_write_status | reflexivity]|].
    now split.
  - left. unfold handleCancellationRequests.
    destruct (id =? 0); [now split|].
    destruct (find_reservation id (reservationsHead st)); [|now split].
    destruct (String.eqb dec "exit"); [now split|].
    destruct (String.eqb dec "yes");
      [split; [apply reservationID_write_status | reflexivity]|].
    destruct (String.eqb dec "no");
      [split; [apply reservationID_write_status | reflexivity]|].
    now split.
Qed.

(** X11.  Reservation identifiers stay unique.  When the identifiers in the
    list are distinct and none is above the counter (the static [lastID],
    or the value of last_id.txt while it is still 0), the counter is not
    negative and the run does not take it past INT_MAX, then after any
    sequence of bookings, cancellation requests, approvals and cancellation
    decisions the identifiers are still distinct, and every identifier that
    was not there before is greater than the initial counter (so it is not
    0 and not the identifier of an older reservation). *)
Theorem reservation_ids_stay_distinct (ops : list Op) (st : State) :
  0 <= counter st ->
  counter st + Z.of_nat (List.length ops) <= CInt.INT_MAX ->
  NoDup (map reservationID (reservationsHead st)) ->
  (forall id, In id (map reservationID (reservationsHead st)) ->
              id <= counter st) ->
  NoDup (map reservationID (reservationsHead (run ops st)))
  /\ (forall id, In id (map reservationID (reservationsHead (run ops st))) ->
        In id (map reservationID (reservationsHead st)) \/ counter st < id).
Proof.
  revert st. induction ops as [|op ops IH]; intros st H0 H1 Hnd Hle.
  - split; [exact Hnd | auto].
  - cbn [List.length] in H1. cbn [run fold_left].
    fold (run ops (step op st)).
    destruct (step_ids op st H0) as [[Hm Hc]|[Hm Hc]]; [lia | |].
    + destruct (IH (step op st)) as [IHn IHi].
      * lia.
      * lia.
      * now rewrite Hm.
      * rewrite Hm, Hc. exact Hle.
      * split; [exact IHn|]. intros id Hid.
        destruct (IHi id Hid) as [Hin|Hgt]; [left; now rewrite <- Hm | right; lia].
    + destruct (IH (step op st)) as [IHn IHi].
      * lia.
      * lia.
      * rewrite Hm. constructor; [|exact Hnd].
        intros Hin. specialize (Hle _ Hin). lia.
      * rewrite Hm, Hc. intros id [<-|Hin]; [lia|].
        specialize (Hle _ Hin). lia.
      * split; [exact IHn|]. intros id Hid.
        destruct (IHi id Hid) as [Hin|Hgt]; [|right; lia].
        rewrite Hm in Hin. destruct Hin as [<-|Hin]; [right; lia | now left].
Qed.

Lemma reservation_ids_stay_distinct_witness :
  NoDup (map reservationID
             (reservationsHead
                (run [OpMakeFlight "rui" 20; OpMakeHotel "ana" 7]
                     (mkState sample_users sample_flights sample_hotels
                              sample_reservations 1003 no_files)))).
Proof.
  apply (reservation_ids_stay_distinct
           [OpMakeFlight "rui" 20; OpMakeHotel "ana" 7]
           (mkState sample_users sample_flights sample_hotels
                    sample_reservations 1003 no_files)).
  - vm_compute. discriminate.
  - vm_compute. discriminate.
  - distinct_literals.
  - simpl. intros id H.
    repeat (destruct H as [<-|H]; [vm_compute; discriminate|]). destruct H.
Defined.

(** ** Bookings *)

Lemma makeFlightReservation_booked uname fn st :
  fn <> 0 -> 0 < calculateAvailableSeats fn st ->
  makeFlightReservation uname fn st
  = (MsgReservationMade (fst (generateReservationID st)),
     saveReservationsToFile
       (with_reservationsHead
          (mkReservation (fst (generateReservationID st)) uname fn (-1)
                         "Pending" :: reservationsHead st)
          (snd (generateReservationID st)))).
Proof.
  intros Hfn Hav. unfold makeFlightReservation.
  destruct (Z.eqb_spec fn 0); [contradiction|].
  destruct (Z.leb_spec (calculateAvailableSeats fn st) 0); [lia|].
  reflexivity.
Qed.

Lemma calculateAvailableSeats_pending fn r st st' :
  status r = "Pending" ->
  flightsHead st' = flightsHead st ->
  reservationsHead st' = r :: reservationsHead st ->
  calculateAvailableSeats fn st' = calculateAvailableSeats fn st.
Proof.
  intros Hs Hf Hr. unfold calculateAvailableSeats. rewrite Hf, Hr.
  unfold countReservationsByFlight. cbn [count_flight_loop].
  rewrite Hs. cbn. now rewrite andb_false_r.
Qed.

(** X12.  Bookings never fill a flight.  A booking is let through when
    [calculateAvailableSeats] is positive, and the Pending reservation it
    creates does not lower that value; so once a flight (number not 0) has
    a free seat, any number of bookings in a row all go through: each name
    gets a Pending reservation of the flight in front of the list, and
    [calculateAvailableSeats] is the same afterwards. *)
Theorem bookings_never_fill_a_flight (fn : Z) (names : list string)
                                     (st : State) :
  fn <> 0 ->
  0 < calculateAvailableSeats fn st ->
  let st' := run (map (fun uname => OpMakeFlight uname fn) names) st in
  calculateAvailableSeats fn st' = calculateAvailableSeats fn st
  /\ exists created,
       reservationsHead st' = created ++ reservationsHead st
       /\ map (fun r => (res_username r, link_fields r, status r)) created
          = rev (map (fun uname => (uname, (fn, -1), "Pending")) names).
Proof.
  intros Hfn. revert st. induction names as [|u names IH]; intros st Hav.
  - cbn. split; [reflexivity|]. now exists [].
  - cbv zeta in IH |- *. cbn [map run fold_left step].
    set (st1 := snd (makeFlightReservation u fn st)).
    fold (run (map (fun uname => OpMakeFlight uname fn) names) st1).
    assert (Hst1 : reservationsHead st1
                   = mkReservation (fst (generateReservationID st)) u fn (-1)
                                   "Pending" :: reservationsHead st).
    { unfold st1. now rewrite makeFlightReservation_booked. }
    assert (Hc1 : calculateAvailableSeats fn st1 = calculateAvailableSeats fn st).
    { apply (calculateAvailableSeats_pending fn
               (mkReservation (fst (generateReservationID st)) u fn (-1)
                              "Pending") st st1 eq_refl); [|exact Hst1].
      unfold st1. now rewrite makeFlightReservation_booked. }
    destruct (IH st1) as [Hc [created [Hr Hm]]]; [lia|].
    split; [now rewrite Hc|].
    exists (created ++ [mkReservation (fst (generateReservationID st)) u fn
                                      (-1) "Pending"]).
    split.
    + rewrite Hr, Hst1, <- app_assoc. reflexivity.
    + rewrite map_app, Hm. reflexivity.
Qed.

Lemma bookings_never_fill_a_flight_witness :
  calculateAvailableSeats 10
    (run (map (fun uname => OpMakeFlight uname 10) ["ana"; "rui"; "ana"])
         (sample_state []))
  = calculateAvailableSeats 10 (sample_state []).
Proof.
  apply (bookings_never_fill_a_flight 10 ["ana"; "rui"; "ana"] (sample_state [])).
  - discriminate.
  - reflexivity.
Defined.

(** X13.  A booking that goes through shows up at once: the new
    reservation is the first line of [viewUserReservations] for the user who
    booked, with status "Pending" and hotel -1, and the first line of
    [viewPendingReservations] (the administrator's notifications); the
    listing of every other user is unchanged. *)
Theorem booking_is_listed (uname other : string) (fn : Z) (st : State) :
  fn <> 0 ->
  0 < calculateAvailableSeats fn st ->
  other <> uname ->
  let id := fst (generateReservationID st) in
  let st' := snd (makeFlightReservation uname fn st) in
  viewUserReservations uname st'
  = (id, fn, -1, "Pending") :: viewUserReservations uname st
  /\ viewPendingReservations st'
     = (id, uname, fn, -1) :: viewPendingReservations st
  /\ viewUserReservations other st' = viewUserReservations other st.
Proof.
  intros Hfn Hav Hother id st'.
  unfold st'. rewrite makeFlightReservation_booked by assumption.
  unfold viewUserReservations, viewPendingReservations,
    listReservationsByStatus.
  cbn [snd saveReservationsToFile with_disk with_reservationsHead
       reservationsHead filter res_username status].
  rewrite String.eqb_refl.
  apply String.eqb_neq in Hother. rewrite String.eqb_sym in Hother.
  rewrite Hother. repeat split.
Qed.

Lemma booking_is_listed_witness :
  viewUserReservations "rui"
    (snd (makeFlightReservation "rui" 20 (sample_state sample_reservations)))
  = (1001, 20, -1, "Pending")
    :: viewUserReservations "rui" (sample_state sample_reservations).
Proof.
  apply (booking_is_listed "rui" "ana" 20 (sample_state sample_reservations)).
  - discriminate.
  - reflexivity.
  - discriminate.
Defined.

(** X14.  Cases 3 and 4 of [userMenu] use up identifiers whether or not a
    reservation is made: with the counter not negative and two steps below
    INT_MAX, a flight booking that goes through gets the identifier counter
    + 1 and leaves the counter at counter + 2, a refused one leaves it at
    counter + 1, and in both cases last_id.txt holds the new counter. *)
Theorem userMenu_uses_up_identifiers (uname : string) (fn : Z) (st : State) :
  0 <= counter st ->
  counter st + 2 <= CInt.INT_MAX ->
  let st' := snd (userMenu_case3 uname fn st) in
  last_id_txt (disk st') = Some (counter st')
  /\ (fn <> 0 /\ 0 < calculateAvailableSeats fn st ->
        fst (userMenu_case3 uname fn st) = MsgReservationMade (counter st + 1)
        /\ counter st' = counter st + 2)
  /\ (fn = 0 \/ calculateAvailableSeats fn st <= 0 ->
        reservationsHead st' = reservationsHead st
        /\ counter st' = counter st + 1).
Proof.
  intros H0 H2 st'.
  assert (Hnext : forall x, 0 <= counter x -> counter x + 1 <= CInt.INT_MAX ->
            counter (saveLastReservationID (fst (generateReservationID x))
                                           (snd (generateReservationID x)))
            = counter x + 1
            /\ last_id_txt (disk (saveLastReservationID
                                    (fst (generateReservationID x))
                                    (snd (generateReservationID x))))
               = Some (counter x + 1)).
  { intros x Hx0 Hx1. destruct (counter_next x Hx0 Hx1) as [Hid Hc].
    rewrite Hid. split; [|reflexivity].
    unfold counter in Hc |- *. cbn [saveLastReservationID with_disk lastID].
    unfold generateReservationID in *. cbn [snd with_lastID lastID] in *.
    destruct (CInt.add (if lastID x =? 0 then loadLastReservationID x
                        else lastID x) 1 =? 0) eqn:E; [|exact Hc].
    fold (counter x) in E. unfold CInt.add in E.
    rewrite wrap_small in E by (unfold CInt.in_range, CInt.INT_MIN; lia).
    apply Z.eqb_eq in E. lia. }
  unfold st', userMenu_case3.
  destruct (Z.eq_dec fn 0) as [E0|E0];
    [|destruct (Z_lt_le_dec 0 (calculateAvailableSeats fn st)) as [Hav|Hav]].
  - assert (Em : makeFlightReservation uname fn st = (MsgExiting, st)).
    { unfold makeFlightReservation. subst fn. reflexivity. }
    rewrite Em.
    destruct (generateReservationID st) as [newResID st2] eqn:Eg.
    pose proof (Hnext st H0 ltac:(lia)) as [Hc Hf]. rewrite Eg in Hc, Hf.
    cbn [fst snd] in *. rewrite Hf, Hc.
    split; [reflexivity|]. split; [intros [Hne _]; contradiction|].
    intros _. split; [|reflexivity].
    apply (f_equal snd) in Eg. cbn in Eg. subst st2. reflexivity.
  - rewrite makeFlightReservation_booked by assumption.
    destruct (counter_next st H0 ltac:(lia)) as [Hid Hc1].
    set (st1 := saveReservationsToFile
                  (with_reservationsHead
                     (mkReservation (fst (generateReservationID st)) uname fn
                                    (-1) "Pending" :: reservationsHead st)
                     (snd (generateReservationID st)))).
    assert (Hc : counter st1 = counter st + 1).
    { unfold st1. now rewrite counter_saveReservationsToFile. }
    destruct (generateReservationID st1) as [newResID st2] eqn:Eg.
    pose proof (Hnext st1 ltac:(lia) ltac:(lia)) as [Hc2 Hf]. rewrite Eg in Hc2, Hf.
    cbn [fst snd] in *. rewrite Hf, Hc2, Hc, Hid.
    split; [f_equal; lia|]. split; [intros _; split; [reflexivity | lia]|].
    intros [Hz|Hle]; [contradiction | lia].
  - assert (Em : makeFlightReservation uname fn st = (MsgFullyBooked, st)).
    { unfold makeFlightReservation.
      destruct (Z.eqb_spec fn 0); [contradiction|].
      destruct (Z.leb_spec (calculateAvailableSeats fn st) 0); [reflexivity|lia]. }
    rewrite Em.
    destruct (generateReservationID st) as [newResID st2] eqn:Eg.
    pose proof (Hnext st H0 ltac:(lia)) as [Hc Hf]. rewrite Eg in Hc, Hf.
    cbn [fst snd] in *. rewrite Hf, Hc.
    split; [reflexivity|]. split; [intros [_ Hpos]; lia|].
    intros _. split; [|reflexivity].
    apply (f_equal snd) in Eg. cbn in Eg. subst st2. reflexivity.
Qed.

Lemma userMenu_uses_up_identifiers_witness :
  fst (userMenu_case3 "ana" 20 (sample_state [])) = MsgReservationMade (1000 + 1)
  /\ counter (snd (userMenu_case3 "ana" 20 (sample_state []))) = 1000 + 2.
Proof.
  destruct (userMenu_uses_up_identifiers "ana" 20 (sample_state []))
    as [_ [Hbooked _]].
  - vm_compute. discriminate.
  - vm_compute. discriminate.
  - apply Hbooked. split; [discriminate | reflexivity].
Defined.

(** ** Cancellations *)

Lemma handleCancellationRequests_found resID decision st r :
  resID <> 0 ->
  find_reservation resID (reservationsHead st) = Some r ->
  handleCancellationRequests resID decision st
  = if String.eqb decision "exit" then (MsgExitNoChanges, st)
    else if String.eqb decision "yes" then
      (MsgCancellationApproved,
       saveReservationsToFile
         (with_reservationsHead
            (write_status resID "Cancelled" (reservationsHead st)) st))
    else if String.eqb decision "no" then
      (MsgCancellationDenied,
       saveReservationsToFile
         (with_reservationsHead
            (write_status resID "Approved" (reservationsHead st)) st))
    else (MsgInvalidNoChanges, saveReservationsToFile st).
Proof.
  intros Hid Hfind. unfold handleCancellationRequests.
  apply Z.eqb_neq in Hid. now rewrite Hid, Hfind.
Qed.

(** X15.  [handleCancellationRequests] does not ask that a cancellation was
    requested: once an identifier other than 0 finds a reservation [r],
    whatever the status of [r], "yes" sets it to "Cancelled" and "no" sets
    it to "Approved" (so a Pending or Rejected reservation is approved from
    this menu as well): the reservation list afterwards is the old one with
    that status in the node of [r]; "exit" leaves the state untouched and
    writes no file. *)
Theorem cancellation_decision_has_no_precondition
        (resID : Z) (r : Reservation) (st : State) :
  resID <> 0 ->
  find_reservation resID (reservationsHead st) = Some r ->
  exists pre post,
    reservationsHead st = pre ++ r :: post
    /\ handleCancellationRequests resID "yes" st
       = (MsgCancellationApproved,
          saveReservationsToFile
            (with_reservationsHead
               (pre ++ set_status r "Cancelled" :: post) st))
    /\ reservationsHead (snd (handleCancellationRequests resID "yes" st))
       = pre ++ mkReservation (reservationID r) (res_username r)
                              (res_flightNumber r) (res_hotelID r)
                              "Cancelled" :: post
    /\ handleCancellationRequests resID "no" st
       = (MsgCancellationDenied,
          saveReservationsToFile
            (with_reservationsHead
               (pre ++ set_status r "Approved" :: post) st))
    /\ reservationsHead (snd (handleCancellationRequests resID "no" st))
       = pre ++ mkReservation (reservationID r) (res_username r)
                              (res_flightNumber r) (res_hotelID r)
                              "Approved" :: post
    /\ handleCancellationRequests resID "exit" st = (MsgExitNoChanges, st).
Proof.
  intros Hid Hfind.
  destruct (write_status_found _ _ _ Hfind) as [pre [post [Hrs Hw]]].
  exists pre, post. split; [exact Hrs|].
  rewrite !(handleCancellationRequests_found _ _ _ r Hid Hfind). cbn.
  rewrite !Hw. repeat split.
Qed.

Lemma cancellation_decision_has_no_precondition_witness :
  reservationsHead
    (snd (handleCancellationRequests 1001 "no"
            (sample_state sample_reservations)))
  = [mkReservation 1003 "rui" (-1) 7 "Pending";
     mkReservation 1002 "ana" 20 (-1) "Approved";
     mkReservation 1001 "ana" 20 (-1) "Approved"]
  /\ reservationsHead
       (snd (handleCancellationRequests 1001 "yes"
               (sample_state sample_reservations)))
     = [mkReservation 1003 "rui" (-1) 7 "Pending";
        mkReservation 1002 "ana" 20 (-1) "Approved";
        mkReservation 1001 "ana" 20 (-1) "Cancelled"].
Proof.
  destruct (cancellation_decision_has_no_precondition 1001
              (mkReservation 1001 "ana" 20 (-1) "Pending")
              (sample_state sample_reservations))
    as [pre [post [Hrs [_ [Hyes [_ [Hno _]]]]]]].
  - discriminate.
  - reflexivity.
  - destruct (split_unique reservationID
                (mkReservation 1001 "ana" 20 (-1) "Pending")
                [mkReservation 1003 "rui" (-1) 7 "Pending";
                 mkReservation 1002 "ana" 20 (-1) "Approved"]
                [] pre post sample_reservation_ids_distinct Hrs) as [<- <-].
    split; [exact Hno | exact Hyes].
Defined.

(** The state after a cancellation request for the Approved reservation [r]
    of [uname], and the node the administrator's decision then finds. *)
Lemma cancelUserReservation_requested uname r st :
  NoDup (map reservationID (reservationsHead st)) ->
  In r (reservationsHead st) ->
  res_username r = uname ->
  reservationID r <> 0 ->
  status r = "Approved" ->
  exists pre post,
    reservationsHead st = pre ++ r :: post
    /\ snd (cancelUserReservation uname (reservationID r) st)
       = saveReservationsToFile
           (with_reservationsHead
              (pre ++ set_status r "Cancel Requested" :: post) st)
    /\ find_reservation (reservationID r)
         (pre ++ set_status r "Cancel Requested" :: post)
       = Some (set_status r "Cancel Requested")
    /\ forall s,
         write_status (reservationID r) s
           (pre ++ set_status r "Cancel Requested" :: post)
         = pre ++ set_status r s :: post.
Proof.
  intros Hnd Hin Hu Hid Hs.
  destruct (restatus_unique r "Cancel Requested" _ Hnd Hin)
    as [pre [post [Hrs Hre]]].
  exists pre, post. split; [exact Hrs|].
  assert (Hpre : ~ In (reservationID r) (map reservationID pre)).
  { rewrite Hrs, map_app in Hnd. cbn in Hnd.
    apply NoDup_remove_2 in Hnd. rewrite in_app_iff in Hnd. tauto. }
  split.
  { unfold cancelUserReservation.
    apply Z.eqb_neq in Hid. rewrite Hid.
    rewrite (cancel_loop_unique uname r _ Hnd Hin Hu), Hre, Hs. reflexivity. }
  clear Hre Hrs Hin Hnd. induction pre as [|x pre IH].
  - cbn. rewrite Z.eqb_refl. cbn. split; [reflexivity|]. intros s. reflexivity.
  - cbn in Hpre. cbn [app find_reservation write_status].
    destruct (Z.eqb_spec (reservationID x) (reservationID r)) as [E|E];
      [tauto|]. cbn [negb].
    destruct IH as [IHf IHw]; [tauto|].
    split; [exact IHf|]. intros s. now rewrite IHw.
Qed.

Lemma set_status_same r : set_status r (status r) = r.
Proof. now destruct r. Qed.

(** X16.  A cancellation request can be undone and can be confirmed.  For
    an Approved reservation [r] of the requesting user (identifiers
    distinct, identifier not 0): after [cancelUserReservation] the status of
    [r] is "Cancel Requested" and nothing else has changed; the
    administrator's "no" in [handleCancellationRequests] then gives back
    exactly the reservation list from before the request, with [r]
    "Approved" again, and "yes" leaves [r] "Cancelled". *)
Theorem cancellation_request_round_trip (uname : string) (r : Reservation)
                                        (st : State) :
  NoDup (map reservationID (reservationsHead st)) ->
  In r (reservationsHead st) ->
  res_username r = uname ->
  reservationID r <> 0 ->
  status r = "Approved" ->
  let st1 := snd (cancelUserReservation uname (reservationID r) st) in
  let node := mkReservation (reservationID r) (res_username r)
                            (res_flightNumber r) (res_hotelID r) in
  exists pre post,
    reservationsHead st = pre ++ node "Approved" :: post
    /\ reservationsHead st1 = pre ++ node "Cancel Requested" :: post
    /\ reservationsHead (snd (handleCancellationRequests (reservationID r)
                                "no" st1))
       = reservationsHead st
    /\ reservationsHead (snd (handleCancellationRequests (reservationID r)
                                "yes" st1))
       = pre ++ node "Cancelled" :: post.
Proof.
  intros Hnd Hin Hu Hid Hs st1 node.
  destruct (cancelUserReservation_requested uname r st Hnd Hin Hu Hid Hs)
    as [pre [post [Hrs [Hst1 [Hfind Hw]]]]].
  assert (Hr : r = node "Approved").
  { unfold node. rewrite <- Hs. now destruct r. }
  exists pre, post. split; [now rewrite Hrs, <- Hr|]. unfold st1. rewrite Hst1.
  split; [reflexivity|].
  rewrite !(handleCancellationRequests_found _ _ _
              (set_status r "Cancel Requested") Hid) by exact Hfind.
  cbn [String.eqb Ascii.eqb Bool.eqb snd saveReservationsToFile with_disk
       with_reservationsHead reservationsHead].
  rewrite !Hw. split; [|reflexivity].
  rewrite Hrs, <- Hs. now rewrite set_status_same.
Qed.

Lemma cancellation_request_round_trip_witness :
  reservationsHead
    (snd (cancelUserReservation "ana" 1002 (sample_state sample_reservations)))
  = [mkReservation 1003 "rui" (-1) 7 "Pending";
     mkReservation 1002 "ana" 20 (-1) "Cancel Requested";
     mkReservation 1001 "ana" 20 (-1) "Pending"]
  /\ reservationsHead
       (snd (handleCancellationRequests 1002 "no"
               (snd (cancelUserReservation "ana" 1002
                       (sample_state sample_reservations)))))
     = sample_reservations
  /\ reservationsHead
       (snd (handleCancellationRequests 1002 "yes"
               (snd (cancelUserReservation "ana" 1002
                       (sample_state sample_reservations)))))
     = [mkReservation 1003 "rui" (-1) 7 "Pending";
        mkReservation 1002 "ana" 20 (-1) "Cancelled";
        mkReservation 1001 "ana" 20 (-1) "Pending"].
Proof.
  destruct (cancellation_request_round_trip "ana"
              (mkReservation 1002 "ana" 20 (-1) "Approved")
              (sample_state sample_reservations)
              sample_reservation_ids_distinct)
    as [pre [post [Hrs [Hreq [Hno Hyes]]]]].
  - simpl. auto.
  - reflexivity.
  - simpl. discriminate.
  - reflexivity.
  - destruct (split_unique reservationID
                (mkReservation 1002 "ana" 20 (-1) "Approved")
                [mkReservation 1003 "rui" (-1) 7 "Pending"]
                [mkReservation 1001 "ana" 20 (-1) "Pending"] pre post
                sample_reservation_ids_distinct Hrs) as [<- <-].
    split; [exact Hreq|]. split; [exact Hno | exact Hyes].
Defined.

Lemma flight_tally_status_left r s pre post :
  status r = "Approved" -> s <> "Approved" ->
  flight_tally (res_flightNumber r) "Approved" (pre ++ set_status r s :: post)
  = flight_tally (res_flightNumber r) "Approved" (pre ++ r :: post) - 1.
Proof.
  intros Hs Hne.
  rewrite !flight_tally_app, !flight_tally_cons.
  unfold refers_to_flight. cbn [set_status res_flightNumber status].
  rewrite Z.eqb_refl, Hs. apply String.eqb_neq in Hne. rewrite Hne.
  rewrite String.eqb_refl. cbn [andb]. lia.
Qed.

(** X17.  The seat of an Approved flight reservation is given back when the
    user asks for the cancellation, not when the administrator confirms it:
    right after [cancelUserReservation] [calculateAvailableSeats] for the
    flight is one higher (as long as the result stays within [int]); the
    administrator's "yes" keeps it there and "no" takes the seat again. *)
Theorem cancellation_request_frees_seat (uname : string) (r : Reservation)
                                        (st : State) :
  NoDup (map reservationID (reservationsHead st)) ->
  In r (reservationsHead st) ->
  res_username r = uname ->
  reservationID r <> 0 ->
  status r = "Approved" ->
  In (res_flightNumber r) (map flightNumber (flightsHead st)) ->
  calculateAvailableSeats (res_flightNumber r) st < CInt.INT_MAX ->
  let st1 := snd (cancelUserReservation uname (reservationID r) st) in
  calculateAvailableSeats (res_flightNumber r) st1
  = calculateAvailableSeats (res_flightNumber r) st + 1
  /\ calculateAvailableSeats (res_flightNumber r)
       (snd (handleCancellationRequests (reservationID r) "yes" st1))
     = calculateAvailableSeats (res_flightNumber r) st + 1
  /\ calculateAvailableSeats (res_flightNumber r)
       (snd (handleCancellationRequests (reservationID r) "no" st1))
     = calculateAvailableSeats (res_flightNumber r) st.
Proof.
  intros Hnd Hin Hu Hid Hs Hfl Hhigh st1.
  destruct (cancelUserReservation_requested uname r st Hnd Hin Hu Hid Hs)
    as [pre [post [Hrs [Hst1 [Hfind Hw]]]]].
  destruct (lookup_flight_In _ _ Hfl) as [f Hf].
  assert (Hup : forall s st2,
            s <> "Approved" ->
            flightsHead st2 = flightsHead st ->
            reservationsHead st2 = pre ++ set_status r s :: post ->
            calculateAvailableSeats (res_flightNumber r) st2
            = calculateAvailableSeats (res_flightNumber r) st + 1).
  { intros s st2 Hne Hfs Hrs2.
    rewrite (calculateAvailableSeats_tally _ st f Hf) in *.
    rewrite (calculateAvailableSeats_tally _ st2 f) by now rewrite Hfs.
    rewrite Hrs2, Hrs in *.
    rewrite flight_tally_status_left by assumption.
    set (T := flight_tally (res_flightNumber r) "Approved" (pre ++ r :: post))
      in *.
    replace (seatsAvailable f - (T - 1)) with (seatsAvailable f - T + 1) by lia.
    rewrite <- wrap_add_l. apply wrap_small.
    pose proof (wrap_in_range (seatsAvailable f - T)) as Hr.
    unfold CInt.in_range in *. unfold CInt.INT_MIN in *. lia. }
  unfold st1. rewrite Hst1.
  rewrite !(handleCancellationRequests_found _ _ _
              (set_status r "Cancel Requested") Hid) by exact Hfind.
  cbn [String.eqb Ascii.eqb Bool.eqb snd].
  rewrite !Hw. split; [|split].
  - apply (Hup "Cancel Requested"); [discriminate | reflexivity | reflexivity].
  - apply (Hup "Cancelled"); [discriminate | reflexivity | reflexivity].
  - unfold calculateAvailableSeats.
    cbn [saveReservationsToFile with_disk with_reservationsHead
         reservationsHead flightsHead].
    rewrite Hrs, <- Hs. now rewrite set_status_same.
Qed.

Lemma cancellation_request_frees_seat_witness :
  calculateAvailableSeats 20
    (snd (cancelUserReservation "ana" 1002 (sample_state sample_reservations)))
  = calculateAvailableSeats 20 (sample_state sample_reservations) + 1.
Proof.
  apply (cancellation_request_frees_seat "ana"
           (mkReservation 1002 "ana" 20 (-1) "Approved")
           (sample_state sample_reservations)
           sample_reservation_ids_distinct).
  - simpl. auto.
  - reflexivity.
  - simpl. discriminate.
  - reflexivity.
  - simpl. auto.
  - vm_compute. reflexivity.
Defined.

(** ** Rooms *)

Lemma hotel_tally_app hid s a b :
  hotel_tally hid s (a ++ b) = hotel_tally hid s a + hotel_tally hid s b.
Proof.
  unfold hotel_tally. rewrite filter_app, length_app. lia.
Qed.

Lemma lookup_hotel_In hid hotels :
  In hid (map hotelID hotels) -> exists h, lookup_hotel hid hotels = Some h.
Proof.
  induction hotels as [|g hs IH]; simpl; [tauto|].
  intros H. destruct (Z.eqb_spec (hotelID g) hid) as [E|E]; simpl.
  - now exists g.
  - apply IH. tauto.
Qed.

Lemma lookup_hotel_unique hotels h :
  NoDup (map hotelID hotels) -> In h hotels ->
  lookup_hotel (hotelID h) hotels = Some h.
Proof.
  induction hotels as [|g hs IH]; simpl; [tauto|].
  intros Hnd [->|Hin].
  - now rewrite Z.eqb_refl.
  - inversion Hnd as [|? ? Hnot Hnd']; subst.
    destruct (Z.eqb_spec (hotelID g) (hotelID h)) as [E|E]; simpl.
    + exfalso. apply Hnot. rewrite E. now apply in_map.
    + now apply IH.
Qed.

Lemma hotel_tally_after_approval r pre post :
  status r <> "Approved" ->
  hotel_tally (res_hotelID r) "Approved"
              (pre ++ set_status r "Approved" :: post)
  = hotel_tally (res_hotelID r) "Approved" (pre ++ r :: post) + 1.
Proof.
  intros Hs.
  rewrite !hotel_tally_app, !hotel_tally_cons.
  unfold refers_to_hotel. cbn [set_status res_hotelID status].
  rewrite Z.eqb_refl. apply String.eqb_neq in Hs. rewrite Hs.
  rewrite String.eqb_refl. cbn [andb]. lia.
Qed.

Lemma calculateAvailableRooms_tally hid st h :
  lookup_hotel hid (hotelsHead st) = Some h ->
  calculateAvailableRooms hid st
  = CInt.wrap (roomsAvailable h
               - hotel_tally hid "Approved" (reservationsHead st)).
Proof.
  intros H. unfold calculateAvailableRooms. rewrite H.
  rewrite countReservationsByHotel_tally. unfold CInt.sub.
  apply wrap_sub_r.
Qed.

(** X18.  For a hotel in the hotel list, when [handleReservationApproval]
    moves a reservation [r] of that hotel to "Approved" ([r] is the
    reservation the identifier finds and was not Approved before),
    [calculateAvailableRooms] for the hotel goes down by exactly 1, as long
    as the result does not leave the range of [int]; the hotels and the
    other reservations do not change. *)
Theorem approval_takes_one_room (resID : Z) (r : Reservation) (st : State) :
  resID <> 0 ->
  find_reservation resID (reservationsHead st) = Some r ->
  status r <> "Approved" ->
  In (res_hotelID r) (map hotelID (hotelsHead st)) ->
  CInt.INT_MIN < calculateAvailableRooms (res_hotelID r) st ->
  let st' := snd (handleReservationApproval resID "yes" st) in
  hotelsHead st' = hotelsHead st
  /\ (exists pre post,
        reservationsHead st = pre ++ r :: post
        /\ reservationsHead st' = pre ++ set_status r "Approved" :: post)
  /\ calculateAvailableRooms (res_hotelID r) st'
     = calculateAvailableRooms (res_hotelID r) st - 1.
Proof.
  intros Hid Hfind Hs Hfl Hlow st'.
  destruct (write_status_found _ _ _ Hfind) as [pre [post [Hrs Hw]]].
  assert (Est : st' = saveReservationsToFile
                        (with_reservationsHead
                           (pre ++ set_status r "Approved" :: post) st)).
  { unfold st'. rewrite (handleReservationApproval_found _ _ _ r Hid Hfind).
    cbn. now rewrite Hw. }
  split; [now rewrite Est|].
  split; [exists pre, post; split; [exact Hrs | now rewrite Est]|].
  destruct (lookup_hotel_In _ _ Hfl) as [h Hh].
  rewrite (calculateAvailableRooms_tally _ st h Hh) in *.
  rewrite (calculateAvailableRooms_tally _ st' h) by now rewrite Est.
  replace (reservationsHead st')
    with (pre ++ set_status r "Approved" :: post) by now rewrite Est.
  rewrite Hrs in *.
  rewrite hotel_tally_after_approval by assumption.
  set (T := hotel_tally (res_hotelID r) "Approved" (pre ++ r :: post)) in *.
  replace (roomsAvailable h - (T + 1)) with (roomsAvailable h - T - 1) by lia.
  rewrite <- wrap_sub_l. apply wrap_small.
  pose proof (wrap_in_range (roomsAvailable h - T)) as Hr.
  unfold CInt.in_range in *. unfold CInt.INT_MAX in *. lia.
Qed.

Lemma approval_takes_one_room_witness :
  calculateAvailableRooms 7
    (snd (handleReservationApproval 1003 "yes"
            (sample_state sample_reservations)))
  = calculateAvailableRooms 7 (sample_state sample_reservations) - 1.
Proof.
  apply (approval_takes_one_room 1003
           (mkReservation 1003 "rui" (-1) 7 "Pending")
           (sample_state sample_reservations)).
  - discriminate.
  - reflexivity.
  - simpl. discriminate.
  - simpl. auto.
  - vm_compute. reflexivity.
Defined.

(** X19.  For every hotel (hotel IDs distinct), [listHotelsUser] prints
    one line, and the room count on it is max(0, roomsAvailable - (Pending
    count + Approved count)), computed without leaving the range of [int];
    it is at most the value of [calculateAvailableRooms] whenever that value
    is not negative, and strictly smaller whenever the hotel has a Pending
    reservation and the shown count is positive. *)
Theorem shown_rooms_below_bookable (h : Hotel) (st : State) :
  let pending := hotel_tally (hotelID h) "Pending" (reservationsHead st) in
  let approved := hotel_tally (hotelID h) "Approved" (reservationsHead st) in
  let bookable := calculateAvailableRooms (hotelID h) st in
  let shown := Z.max 0 (roomsAvailable h - (pending + approved)) in
  NoDup (map hotelID (hotelsHead st)) ->
  In h (hotelsHead st) ->
  roomsAvailable h <= CInt.INT_MAX ->
  CInt.INT_MIN <= roomsAvailable h - (pending + approved) ->
  map fst (listHotelsUser st) = hotelsHead st
  /\ In (h, shown) (listHotelsUser st)
  /\ (forall n, In (h, n) (listHotelsUser st) -> n = shown)
  /\ bookable = roomsAvailable h - approved
  /\ (0 <= bookable -> shown <= bookable)
  /\ (1 <= pending -> 0 < shown -> shown < bookable).
Proof.
  intros pending approved bookable shown Hnd Hin Hhi Hlo.
  pose proof (tally_nonneg_hotel (hotelID h) "Pending"
                (reservationsHead st)) as HP.
  pose proof (tally_nonneg_hotel (hotelID h) "Approved"
                (reservationsHead st)) as HA.
  fold pending in HP. fold approved in HA.
  assert (Hb : bookable = roomsAvailable h - approved).
  { unfold bookable.
    rewrite (calculateAvailableRooms_tally _ st h)
      by now apply lookup_hotel_unique.
    apply wrap_small. unfold CInt.in_range. fold approved. lia. }
  assert (Hs : shown_rooms h (reservationsHead st) = shown).
  { unfold shown_rooms.
    rewrite !countReservationsByHotel_tally. fold pending approved.
    unfold CInt.sub, CInt.add.
    rewrite wrap_add_l, (Z.add_comm pending), wrap_add_l.
    rewrite (Z.add_comm approved), wrap_sub_r.
    rewrite (wrap_small (roomsAvailable h - (pending + approved)))
      by (unfold CInt.in_range; lia).
    unfold shown.
    destruct (Z.ltb_spec (roomsAvailable h - (pending + approved)) 0); lia. }
  split.
  { unfold listHotelsUser. rewrite map_map. cbn [fst]. apply map_id. }
  split.
  { unfold listHotelsUser. apply in_map_iff. exists h.
    split; [now rewrite Hs | exact Hin]. }
  split.
  { intros n Hn. unfold listHotelsUser in Hn. apply in_map_iff in Hn.
    destruct Hn as [g [Heq _]]. injection Heq as -> <-. exact Hs. }
  split; [exact Hb|]. unfold shown. split; lia.
Qed.

Lemma shown_rooms_below_bookable_witness :
  listHotelsUser (sample_state sample_reservations)
  = [(mkHotel 7 "Mar" "Faro" 2, 1)]
  /\ In (mkHotel 7 "Mar" "Faro" 2, 1)
        (listHotelsUser (sample_state sample_reservations))
  /\ 1 < calculateAvailableRooms 7 (sample_state sample_reservations).
Proof.
  destruct (shown_rooms_below_bookable (mkHotel 7 "Mar" "Faro" 2)
              (sample_state sample_reservations)) as [_ [H1 [_ [_ [_ H4]]]]].
  - distinct_literals.
  - simpl. auto.
  - vm_compute. discriminate.
  - vm_compute. discriminate.
  - split; [reflexivity|]. split; [exact H1|]. apply H4.
    + vm_compute. discriminate.
    + reflexivity.
Defined.

(** ** Ownership and deleted users *)

Lemma cancel_loop_no_match uname resID rs :
  (forall x, In x rs -> reservationID x = resID -> res_username x <> uname) ->
  cancel_loop uname resID rs = (MsgNotFound, rs).
Proof.
  induction rs as [|x rs IH]; intros H; cbn [cancel_loop]; [reflexivity|].
  destruct (Z.eqb_spec (reservationID x) resID) as [E|E].
  - destruct (String.eqb_spec (res_username x) uname) as [E'|E'].
    + exfalso. apply (H x (or_introl eq_refl) E E').
    + cbn [andb]. rewrite IH; [reflexivity|].
      intros y Hy. apply H. now right.
  - cbn [andb]. rewrite IH; [reflexivity|].
    intros y Hy. apply H. now right.
Qed.

(** X20.  A user cannot ask for the cancellation of somebody else's
    reservation: when the identifier typed (not 0) belongs to a reservation
    of another user (identifiers distinct), or to no reservation,
    [cancelUserReservation] answers "Reservation not found." and changes
    nothing, whatever the status of that reservation. *)
Theorem cancel_foreign_reservation_refused (uname : string) (resID : Z)
                                           (st : State) :
  NoDup (map reservationID (reservationsHead st)) ->
  resID <> 0 ->
  (forall r, In r (reservationsHead st) ->
             reservationID r = resID ->
             res_username r <> uname ->
             cancelUserReservation uname resID st = (MsgNotFound, st))
  /\ (~ In resID (map reservationID (reservationsHead st)) ->
        cancelUserReservation uname resID st = (MsgNotFound, st)).
Proof.
  intros Hnd Hid. apply Z.eqb_neq in Hid. split.
  - intros r Hin Hr Hu. unfold cancelUserReservation. rewrite Hid.
    rewrite cancel_loop_no_match; [reflexivity|].
    intros x Hx Hsame.
    assert (x = r); [|now subst].
    pose proof (find_reservation_unique x _ Hnd Hx) as Fx.
    pose proof (find_reservation_unique r _ Hnd Hin) as Fr.
    rewrite Hsame in Fx. rewrite Hr in Fr. congruence.
  - intros Habsent. unfold cancelUserReservation. rewrite Hid.
    rewrite cancel_loop_no_match; [reflexivity|].
    intros x Hx Hsame. exfalso. apply Habsent. rewrite <- Hsame.
    now apply in_map.
Qed.

Lemma cancel_foreign_reservation_refused_witness :
  cancelUserReservation "rui" 1002 (sample_state sample_reservations)
  = (MsgNotFound, sample_state sample_reservations).
Proof.
  destruct (cancel_foreign_reservation_refused "rui" 1002
              (sample_state sample_reservations)
              sample_reservation_ids_distinct) as [Hforeign _].
  - discriminate.
  - apply (Hforeign (mkReservation 1002 "ana" 20 (-1) "Approved")).
    + simpl. auto.
    + reflexivity.
    + simpl. discriminate.
Defined.

(** X21.  Deleting a user (names distinct, list shorter than INT_MAX) locks
    the name out, [loginUser] then answers "Invalid username or password."
    for every password and role, but it does not remove the user's
    reservations: [viewUserReservations] for the name lists what it listed
    before, also for whoever registers the same name again. *)
Theorem deleted_user_keeps_reservations
        (pre post : list User) (u : User) (typed newpwd : string)
        (expected adm : Z) (s : Session) :
  head (globals s) = pre ++ u :: post ->
  NoDup (map username (head (globals s))) ->
  Z.of_nat (List.length (head (globals s))) < CInt.INT_MAX ->
  let st1 := snd (deleteUser (Z.of_nat (List.length pre) + 1) (globals s)) in
  let st2 := snd (registerUser (username u) newpwd adm st1) in
  head st1 = pre ++ post
  /\ loginUser expected (username u) typed (mkSession st1 (currentUser s))
     = (-1, Some MsgInvalidLogin, mkSession st1 (currentUser s))
  /\ viewUserReservations (username u) st1
     = viewUserReservations (username u) (globals s)
  /\ head st2 = pre ++ post ++ [mkUser (username u) newpwd adm]
  /\ viewUserReservations (username u) st2
     = viewUserReservations (username u) (globals s).
Proof.
  intros Hsplit Hnd Hlen st1 st2.
  assert (E1 : st1 = saveUsers (with_head (pre ++ post) (globals s))).
  { unfold st1, deleteUser. rewrite Hsplit.
    rewrite (deleteUser_loop_hit _ pre u post 1); [reflexivity | lia | lia |].
    rewrite Hsplit, length_app in Hlen. cbn [List.length] in Hlen. lia. }
  assert (Hgone : ~ In (username u) (map username (pre ++ post))).
  { rewrite Hsplit, map_app in Hnd. cbn in Hnd.
    apply NoDup_remove_2 in Hnd. now rewrite map_app. }
  assert (E2 : st2 = saveUsers
                       (with_head ((pre ++ post) ++ [mkUser (username u) newpwd adm])
                                  st1)).
  { unfold st2, registerUser.
    destruct (username_exists (username u) (head st1)) eqn:E.
    - apply username_exists_In in E. rewrite E1 in E. contradiction.
    - rewrite E1. reflexivity. }
  split; [now rewrite E1|]. split.
  { unfold loginUser. cbn [globals]. rewrite E1.
    cbn [saveUsers with_disk with_head head].
    now rewrite find_credentials_absent. }
  split; [now rewrite E1|]. split.
  { rewrite E2. cbn. now rewrite <- app_assoc. }
  rewrite E2, E1. reflexivity.
Qed.

Lemma deleted_user_keeps_reservations_witness :
  loginUser 0 "ana" "pw1"
    (mkSession (snd (deleteUser 1 (sample_state sample_reservations))) "")
  = (-1, Some MsgInvalidLogin,
     mkSession (snd (deleteUser 1 (sample_state sample_reservations))) "")
  /\ viewUserReservations "ana"
       (snd (deleteUser 1 (sample_state sample_reservations)))
     = [(1002, 20, -1, "Approved"); (1001, 20, -1, "Pending")].
Proof.
  destruct (deleted_user_keeps_reservations
              [] [mkUser "rui" "pw2" 1] (mkUser "ana" "pw1" 0) "pw1" "new" 0 0
              (mkSession (sample_state sample_reservations) ""))
    as [_ [Hlogin [Hview _]]].
  - reflexivity.
  - distinct_literals.
  - vm_compute. reflexivity.
  - split; [exact Hlogin | exact Hview].
Defined.
